(** * FileChangedCache (electron-compile, [src/file-change-cache.js])

    A shallow embedding of the file-change cache and the properties of
    its lookup, classification and persistence code.

    Conventions of the embedding.
    - A [Buffer] is a list of bytes, each a [Z] in [0, 255].
    - A [JSString] is the content of a decoded file: a list of UTF-16 code
      units, each a [Z] in [0, 65535]; [str.length] is the length of the
      list and [str.charCodeAt(i)] its i-th element.
    - Path names, cache keys, hex digests, error messages and the JSON text
      of a snapshot are Rocq [string]s, read as the UTF-8 bytes of the
      JavaScript string.
    - [this.changeCache], a JavaScript object used as a dictionary, is a
      [gmap string CacheEntry]; only own properties are modelled.
    - Promise-returning methods and their [Sync] twins have the same body
      up to [await]; each pair is embedded once. *)

From Stdlib Require Import ZArith Ascii String List Lia Bool.
From Stdlib Require Import DecimalFacts DecimalPos DecimalZ.
From stdpp Require Import base option list strings gmap fin_maps.

Local Open Scope Z_scope.

(** ** Data *)

Definition Buffer := list Z.
Definition JSString := list Z.

(** Code units of an ASCII literal, for the string constants of the source. *)
Definition codeUnits (s : string) : JSString :=
  map (fun c => Z.of_N (N_of_ascii c)) (list_ascii_of_string s).

Definition bytesOfString (s : string) : Buffer := codeUnits s.

Definition asciiOfByte (b : Z) : ascii := ascii_of_N (Z.to_N (b mod 256)).

Definition stringOfBytes (b : Buffer) : string :=
  string_of_list_ascii (map asciiOfByte b).

(** ** Text encodings of Node's [Buffer] *)

Inductive Encoding := utf8 | utf16le.

Definition between (lo hi b : Z) : bool := (lo <=? b) && (b <=? hi).
Definition isContinuation (b : Z) : bool := between 0x80 0xBF b.
Definition replacementChar : Z := 0xFFFD.

(** A code point as one code unit, or as a surrogate pair above the BMP. *)
Definition codeUnitsOfCodePoint (cp : Z) : JSString :=
  if cp <? 0x10000 then [cp]
  else [0xD800 + (cp - 0x10000) / 0x400; 0xDC00 + (cp - 0x10000) mod 0x400].

(** [buf.toString('utf8')]: every maximal ill-formed prefix decodes to one
    U+FFFD. *)
Fixpoint utf8Decode (buf : Buffer) : JSString :=
  match buf with
  | [] => []
  | b0 :: r0 =>
    if b0 <? 0x80 then b0 :: utf8Decode r0
    else if between 0xC2 0xDF b0 then
      match r0 with
      | b1 :: r1 =>
        if isContinuation b1
        then ((b0 - 0xC0) * 64 + (b1 - 0x80)) :: utf8Decode r1
        else replacementChar :: utf8Decode r0
      | [] => [replacementChar]
      end
    else if between 0xE0 0xEF b0 then
      match r0 with
      | b1 :: r1 =>
        if between (if b0 =? 0xE0 then 0xA0 else 0x80)
                   (if b0 =? 0xED then 0x9F else 0xBF) b1
        then
          match r1 with
          | b2 :: r2 =>
            if isContinuation b2
            then ((b0 - 0xE0) * 4096 + (b1 - 0x80) * 64 + (b2 - 0x80))
                   :: utf8Decode r2
            else replacementChar :: utf8Decode r1
          | [] => [replacementChar]
          end
        else replacementChar :: utf8Decode r0
      | [] => [replacementChar]
      end
    else if between 0xF0 0xF4 b0 then
      match r0 with
      | b1 :: r1 =>
        if between (if b0 =? 0xF0 then 0x90 else 0x80)
                   (if b0 =? 0xF4 then 0x8F else 0xBF) b1
        then
          match r1 with
          | b2 :: r2 =>
            if isContinuation b2
            then
              match r2 with
              | b3 :: r3 =>
                if isContinuation b3
                then codeUnitsOfCodePoint
                       ((b0 - 0xF0) * 262144 + (b1 - 0x80) * 4096
                        + (b2 - 0x80) * 64 + (b3 - 0x80))
                       ++ utf8Decode r3
                else replacementChar :: utf8Decode r2
              | [] => [replacementChar]
              end
            else replacementChar :: utf8Decode r1
          | [] => [replacementChar]
          end
        else replacementChar :: utf8Decode r0
      | [] => [replacementChar]
      end
    else replacementChar :: utf8Decode r0
  end.

(** [buf.toString('utf16le')]: little-endian pairs, a trailing odd byte is
    dropped. *)
Fixpoint utf16leDecode (buf : Buffer) : JSString :=
  match buf with
  | lo :: hi :: r => (lo + 256 * hi) :: utf16leDecode r
  | _ => []
  end.

Definition bufferToString (buf : Buffer) (x : Encoding) : JSString :=
  match x with
  | utf8 => utf8Decode buf
  | utf16le => utf16leDecode buf
  end.

Definition isHighSurrogate (c : Z) : bool := between 0xD800 0xDBFF c.
Definition isLowSurrogate (c : Z) : bool := between 0xDC00 0xDFFF c.

Definition utf8OfCodePoint (cp : Z) : Buffer :=
  if cp <? 0x80 then [cp]
  else if cp <? 0x800 then [0xC0 + cp / 64; 0x80 + cp mod 64]
  else if cp <? 0x10000 then
    [0xE0 + cp / 4096; 0x80 + (cp / 64) mod 64; 0x80 + cp mod 64]
  else
    [0xF0 + cp / 262144; 0x80 + (cp / 4096) mod 64;
     0x80 + (cp / 64) mod 64; 0x80 + cp mod 64].

(** The bytes hashed by [hash.update(str, 'utf8')]: surrogate pairs are
    joined, a lone surrogate is written as U+FFFD. *)
Fixpoint utf8Encode (str : JSString) : Buffer :=
  match str with
  | [] => []
  | c :: r =>
    if isHighSurrogate c then
      match r with
      | d :: r' =>
        if isLowSurrogate d
        then utf8OfCodePoint (0x10000 + (c - 0xD800) * 0x400 + (d - 0xDC00))
               ++ utf8Encode r'
        else utf8OfCodePoint replacementChar ++ utf8Encode r
      | [] => utf8OfCodePoint replacementChar
      end
    else if isLowSurrogate c then utf8OfCodePoint replacementChar ++ utf8Encode r
    else utf8OfCodePoint c ++ utf8Encode r
  end.

(** [utf16le] bytes of a string, used to build test inputs. *)
Definition utf16leEncode (str : JSString) : Buffer :=
  concat (map (fun c => [c mod 256; c / 256]) str).

(** ** SHA-1, as [crypto.createHash('sha1')] computes it *)

Module SHA1.

Definition wrap (x : Z) : Z := x mod 2 ^ 32.
Definition add (x y : Z) : Z := wrap (x + y).
Definition rotl (n x : Z) : Z :=
  wrap (Z.lor (Z.shiftl x n) (Z.shiftr x (32 - n))).
Definition not32 (x : Z) : Z := 2 ^ 32 - 1 - x.

Definition pad (msg : Buffer) : Buffer :=
  let len := Z.of_nat (length msg) in
  let zeros := Z.to_nat ((55 - len) mod 64) in
  let bits := len * 8 in
  msg ++ [0x80] ++ repeat 0 zeros
      ++ map (fun i => Z.shiftr bits (8 * (7 - Z.of_nat i)) mod 256) (seq 0 8).

Fixpoint words (n : nat) (b : Buffer) : list Z :=
  match n, b with
  | S n', b0 :: b1 :: b2 :: b3 :: r =>
    (b0 * 16777216 + b1 * 65536 + b2 * 256 + b3) :: words n' r
  | _, _ => []
  end.

Fixpoint blocks (n : nat) (b : Buffer) : list (list Z) :=
  match n with
  | O => []
  | S n' =>
    match b with
    | [] => []
    | _ => words 16 (take 64 b) :: blocks n' (drop 64 b)
    end
  end.

Definition word (w : list Z) (t : nat) : Z := nth t w 0.

Fixpoint schedule (n : nat) (w : list Z) : list Z :=
  match n with
  | O => w
  | S n' =>
    let t := length w in
    schedule n'
      (w ++ [rotl 1 (Z.lxor (Z.lxor (word w (t - 3)) (word w (t - 8)))
                            (Z.lxor (word w (t - 14)) (word w (t - 16))))])
  end.

Definition State := (Z * Z * Z * Z * Z)%type.

Definition round (t : nat) (wt : Z) (s : State) : State :=
  let '(a, b, c, d, e) := s in
  let '(f, k) :=
    if (t <? 20)%nat then
      (Z.lor (Z.land b c) (Z.land (not32 b) d), 0x5A827999)
    else if (t <? 40)%nat then
      (Z.lxor (Z.lxor b c) d, 0x6ED9EBA1)
    else if (t <? 60)%nat then
      (Z.lor (Z.lor (Z.land b c) (Z.land b d)) (Z.land c d), 0x8F1BBCDC)
    else
      (Z.lxor (Z.lxor b c) d, 0xCA62C1D6) in
  (add (add (add (add (rotl 5 a) f) e) k) wt, a, rotl 30 b, c, d).

Fixpoint rounds (t : nat) (w : list Z) (s : State) : State :=
  match w with
  | [] => s
  | wt :: w' => rounds (S t) w' (round t wt s)
  end.

Definition compress (h : State) (block : list Z) : State :=
  let '(h0, h1, h2, h3, h4) := h in
  let '(a, b, c, d, e) := rounds 0 (schedule 64 block) h in
  (add h0 a, add h1 b, add h2 c, add h3 d, add h4 e).

Definition init : State :=
  (0x67452301, 0xEFCDAB89, 0x98BADCFE, 0x10325476, 0xC3D2E1F0).

Definition hexDigit (d : Z) : ascii :=
  ascii_of_N (Z.to_N (if d <? 10 then 48 + d else 87 + d)).

Definition hexWord (x : Z) : list ascii :=
  map (fun i => hexDigit (Z.shiftr x (4 * (7 - Z.of_nat i)) mod 16)) (seq 0 8).

(** [createHash('sha1').update(buf).digest('hex')] *)
Definition hex (msg : Buffer) : string :=
  let p := pad msg in
  let '(h0, h1, h2, h3, h4) :=
    fold_left compress (blocks (length p) p) init in
  string_of_list_ascii
    (hexWord h0 ++ hexWord h1 ++ hexWord h2 ++ hexWord h3 ++ hexWord h4).

End SHA1.


(** ** Classifiers (the static methods) *)

(** [a / b < p / q] on JavaScript numbers, for integers [a], [p] and
    positive [b], [q], computed exactly by cross-multiplication. The two
    uses are [controlCount / str.length < 0.02], with a count of at most
    16, and [length / newlineCount > 80], with a length of at most 1024:
    when the exact quotient differs from the bound it does so by a relative
    gap of more than 1/1000, far above the rounding of a double, and when
    it equals the bound both sides round to the same double. *)
Definition quotLt (a b p q : Z) : bool := a * q <? p * b.

(** The [for] loop of [containsControlCharacters]: [inr tt] is the early
    [return true], [inl n] the value of [controlCount] after the loop. *)
Fixpoint controlLoop (str : JSString) (controlCount : Z) : Z + unit :=
  match str with
  | [] => inl controlCount
  | c :: rest =>
    let controlCount :=
      if (c =? 65536) || (c <? 8) then controlCount + 1 else controlCount in
    if controlCount >? 16 then inr tt else controlLoop rest controlCount
  end.

Definition containsControlCharacters (str : JSString) : bool :=
  match controlLoop str 0 with
  | inr _ => true
  | inl controlCount =>
    if controlCount =? 0 then false
    else quotLt controlCount (Z.of_nat (length str)) 2 100
  end.

(** What [detectFileEncoding] returns when it is not [undefined]: [true]
    or an element of [encodings]. *)
Inductive Detected :=
| DetectedTrue
| DetectedName (x : Encoding).

Definition encodings : list Encoding := [utf8; utf16le].

(** [None] is [undefined], the result of [_.find] when no element
    qualifies. *)
Definition detectFileEncoding (buffer : Buffer) : option Detected :=
  if (length buffer <? 1)%nat then Some DetectedTrue
  else
    let buf := if (length buffer <? 4096)%nat then buffer else take 4096 buffer in
    let encoding :=
      List.find (fun x => negb (containsControlCharacters (bufferToString buf x)))
                encodings in
    DetectedName <$> encoding.

(** The newline-counting loop of [contentsAreMinified]; it runs over
    [source.length]. *)
Fixpoint newlineLoop (source : JSString) (newlineCount : Z) : Z :=
  match source with
  | [] => newlineCount
  | c :: rest => newlineLoop rest (if c =? 10 then newlineCount + 1 else newlineCount)
  end.

Definition contentsAreMinified (source : JSString) : bool :=
  let length := Z.of_nat (length source) in
  let length := if length >? 1024 then 1024 else length in
  let newlineCount := newlineLoop source 0 in
  if newlineCount =? 0 then length >? 80
  else quotLt 80 1 length newlineCount.

Fixpoint isPrefixOf (pat s : JSString) : bool :=
  match pat, s with
  | [], _ => true
  | p :: pat', c :: s' => (p =? c) && isPrefixOf pat' s'
  | _ :: _, [] => false
  end.

Fixpoint lastIndexFrom (pat s : JSString) (i last : Z) : Z :=
  match s with
  | [] => if isPrefixOf pat [] then i else last
  | _ :: s' => lastIndexFrom pat s' (i + 1) (if isPrefixOf pat s then i else last)
  end.

(** [s.lastIndexOf(pat)], [-1] when there is no occurrence. *)
Definition lastIndexOf (s pat : JSString) : Z := lastIndexFrom pat s 0 (-1).

Definition hasSourceMap (sourceCode : JSString) : bool :=
  lastIndexOf sourceCode (codeUnits "//# sourceMap")
  >? lastIndexOf sourceCode (codeUnits (String (ascii_of_nat 10) "")).

(** Regular expressions of [isInNodeModules] as lists of one-character
    tests, matched at any position of the path. *)
Definition upperAscii (c : ascii) : ascii :=
  let n := nat_of_ascii c in
  if ((97 <=? n) && (n <=? 122))%nat then ascii_of_nat (n - 32) else c.

Definition isSeparator (c : ascii) : bool :=
  bool_decide (c = "\"%char) || bool_decide (c = "/"%char).
Definition sameCharIgnoreCase (p c : ascii) : bool :=
  bool_decide (upperAscii p = upperAscii c).
Definition sameChar (p c : ascii) : bool := bool_decide (p = c).

Fixpoint matchesHere (pat : list (ascii -> bool)) (s : string) : bool :=
  match pat, s with
  | [], _ => true
  | p :: pat', String c s' => p c && matchesHere pat' s'
  | _ :: _, EmptyString => false
  end.

Fixpoint matchesSomewhere (pat : list (ascii -> bool)) (s : string) : bool :=
  matchesHere pat s ||
  match s with
  | EmptyString => false
  | String _ s' => matchesSomewhere pat s'
  end.

Definition reNodeModules : list (ascii -> bool) :=
  isSeparator :: map sameCharIgnoreCase (list_ascii_of_string "node_modules")
              ++ [isSeparator].
Definition reAtomAsar : list (ascii -> bool) :=
  isSeparator :: map sameChar (list_ascii_of_string "atom.asar").

Definition isInNodeModules (filePath : string) : bool :=
  matchesSomewhere reNodeModules filePath || matchesSomewhere reAtomAsar filePath.

(** ** Records of the cache *)

(** The [info] object; it is what a snapshot keeps of a file's facts. *)
Module Info.
Record t := make {
  hash : string;
  isMinified : bool;
  isInNodeModules : bool;
  hasSourceMap : bool;
  isFileBinary : bool
}.
End Info.

(** [{ ctime, size, info }], one per key of [changeCache]. *)
Module CacheEntry.
Record t := make {
  ctime : Z;
  size : Z;
  info : Info.t
}.
End CacheEntry.

(** The constructor stores whatever it is given as [appRoot]: a string for
    the callers of [new FileChangedCache(appRoot)], a boolean for
    [loadFromFile], or nothing. *)
Inductive JSValue :=
| VUndefined
| VBool (b : bool)
| VString (s : string).

Definition truthy (v : JSValue) : bool :=
  match v with
  | VUndefined => false
  | VBool b => b
  | VString s => negb (bool_decide (s = ""))
  end.

(** [ToString], applied by [String.prototype.replace] to a pattern that is
    not a regular expression. *)
Definition toString (v : JSValue) : string :=
  match v with
  | VUndefined => "undefined"
  | VBool true => "true"
  | VBool false => "false"
  | VString s => s
  end.

Record FileChangedCache := {
  appRoot : JSValue;
  failOnCacheMiss : bool;
  changeCache : gmap string CacheEntry.t
}.

(** Assignment to [changeCache]. *)
Definition setChangeCache (self : FileChangedCache)
  (m : gmap string CacheEntry.t) : FileChangedCache :=
  {| appRoot := appRoot self;
     failOnCacheMiss := failOnCacheMiss self;
     changeCache := m |}.

(** [constructor(appRoot, failOnCacheMiss=false)]; [None] is an omitted
    argument. *)
Definition constructor (appRoot : JSValue) (failOnCacheMiss : option bool)
  : FileChangedCache :=
  {| appRoot := appRoot;
     failOnCacheMiss := default false failOnCacheMiss;
     changeCache := ∅ |}.

Fixpoint dropString (n : nat) (s : string) : string :=
  match n, s with
  | O, _ => s
  | S n', String _ s' => dropString n' s'
  | S _, EmptyString => EmptyString
  end.

(** [s.replace(pattern, '')] for a string pattern: the first occurrence is
    removed. *)
Fixpoint removeFirst (pattern s : string) : string :=
  if String.prefix pattern s then dropString (String.length pattern) s
  else
    match s with
    | EmptyString => EmptyString
    | String c s' => String c (removeFirst pattern s')
    end.

Definition cacheKeyOf (self : FileChangedCache) (absoluteFilePath : string)
  : string :=
  if truthy (appRoot self)
  then removeFirst (toString (appRoot self)) absoluteFilePath
  else absoluteFilePath.

(** ** The filesystem collaborator *)

Module Stats.
Record t := make {
  ctime : Z;      (* [stat.ctime.getTime()] *)
  size : Z;
  isFile : bool
}.
End Stats.

Record Node := {
  stats : Stats.t;
  data : Buffer
}.

Inductive FsCall :=
| Stat (path : string)
| ReadFile (path : string) (options : option Detected)
| WriteFile (path : string) (data : Buffer).

Record World := {
  files : gmap string Node;
  clock : Z;
  calls : list FsCall       (* most recent call first *)
}.

Inductive Exception :=
| Error (message : string)
| SystemError (code : string) (path : string)
| TypeError (message : string)
| ZlibError
| SyntaxError
| NotASnapshot.

Inductive Outcome (A : Type) :=
| Return (a : A)
| Throw (e : Exception).
Arguments Return {A} a.
Arguments Throw {A} e.

(** ** A state and exception monad *)

Definition Eff (S A : Type) : Type := S -> Outcome A * S.

Definition ret {S A} (a : A) : Eff S A := fun s => (Return a, s).
Definition throw {S A} (e : Exception) : Eff S A := fun s => (Throw e, s).
Definition bind {S A B} (m : Eff S A) (k : A -> Eff S B) : Eff S B :=
  fun s =>
    match m s with
    | (Return a, s') => k a s'
    | (Throw e, s') => (Throw e, s')
    end.

Notation "x <- m ;; k" := (bind m (fun x => k))
  (at level 100, m at next level, right associativity).
Notation "m ;;; k" := (bind m (fun _ => k))
  (at level 100, right associativity).

Definition IO := Eff World.

Definition logCall (c : FsCall) (w : World) : World :=
  {| files := files w; clock := clock w; calls := c :: calls w |}.

(** [fs.stat(path)] *)
Definition fsStat (path : string) : IO Stats.t := fun w =>
  let w := logCall (Stat path) w in
  match files w !! path with
  | Some n => (Return (stats n), w)
  | None => (Throw (SystemError "ENOENT" path), w)
  end.

Definition readBytes (path : string) (w : World) : Outcome Buffer :=
  match files w !! path with
  | Some n =>
    if Stats.isFile (stats n) then Return (data n)
    else Throw (SystemError "EISDIR" path)
  | None => Throw (SystemError "ENOENT" path)
  end.

(** [fs.readFile(path)]: the raw bytes. *)
Definition fsReadFile (path : string) : IO Buffer := fun w =>
  let w := logCall (ReadFile path None) w in (readBytes path w, w).

(** [fs.readFile(path, options)]: a string in the encoding named by
    [options]; Node rejects an [options] that is neither a string nor an
    object with a [TypeError], before it opens the file. *)
Definition fsReadFileWith (path : string) (options : Detected) : IO JSString :=
  fun w =>
    let w := logCall (ReadFile path (Some options)) w in
    match options with
    | DetectedTrue => (Throw (TypeError "Bad arguments"), w)
    | DetectedName x =>
      match readBytes path w with
      | Return b => (Return (bufferToString b x), w)
      | Throw e => (Throw e, w)
      end
    end.

(** [fs.writeFile(path, data)] *)
Definition fsWriteFile (path : string) (buf : Buffer) : IO unit := fun w =>
  let w := logCall (WriteFile path buf) w in
  let written :=
    {| stats := Stats.make (clock w) (Z.of_nat (length buf)) true; data := buf |} in
  let store :=
    (Return tt,
     {| files := <[path := written]> (files w); clock := clock w; calls := calls w |}) in
  match files w !! path with
  | Some n => if Stats.isFile (stats n) then store
              else (Throw (SystemError "EISDIR" path), w)
  | None => store
  end.

(** ** Methods *)

(** The state of a method call: the receiver and the world. *)
Record Frame := {
  this : FileChangedCache;
  world : World
}.

Definition Method := Eff Frame.

Definition liftIO {A} (m : IO A) : Method A := fun f =>
  match m (world f) with
  | (r, w) => (r, {| this := this f; world := w |})
  end.

Definition getThis : Method FileChangedCache := fun f => (Return (this f), f).

Definition updateChangeCache
  (g : gmap string CacheEntry.t -> gmap string CacheEntry.t) : Method unit :=
  fun f =>
    (Return tt,
     {| this := setChangeCache (this f) (g (changeCache (this f)));
        world := world f |}).

(** The object [{ sourceCode, digest, binaryData }]; [None] is [null]. *)
Record HashResult := {
  sourceCode : option JSString;
  digest : string;
  binaryData : option Buffer
}.

(** [calculateHashForFile] and [calculateHashForFileSync] *)
Definition calculateHashForFile (absoluteFilePath : string) : IO HashResult :=
  buf <- fsReadFile absoluteFilePath ;;
  let encoding := detectFileEncoding buf in
  match encoding with
  | None =>
    let digest := SHA1.hex buf in
    ret {| sourceCode := None; digest := digest; binaryData := Some buf |}
  | Some encoding =>
    sourceCode <- fsReadFileWith absoluteFilePath encoding ;;
    let digest := SHA1.hex (utf8Encode sourceCode) in
    ret {| sourceCode := Some sourceCode; digest := digest; binaryData := None |}
  end.

(** What a lookup returns: the stored [info] object, or a fresh [info]
    extended with [sourceCode] or with [binaryData]. *)
Inductive Facts :=
| Stored (info : Info.t)
| WithSourceCode (sourceCode : JSString) (info : Info.t)
| WithBinaryData (binaryData : Buffer) (info : Info.t).

Definition infoOf (r : Facts) : Info.t :=
  match r with
  | Stored i | WithSourceCode _ i | WithBinaryData _ i => i
  end.

(** The part of [getHashForPath] after the metadata test: derive the facts
    and store the entry. *)
Definition recompute (absoluteFilePath cacheKey : string) (ctime size : Z)
  : Method Facts :=
  r <- liftIO (calculateHashForFile absoluteFilePath) ;;
  let info :=
    Info.make (digest r)
              (contentsAreMinified (default [] (sourceCode r)))
              (isInNodeModules absoluteFilePath)
              (hasSourceMap (default [] (sourceCode r)))
              (bool_decide (is_Some (binaryData r))) in
  updateChangeCache (insert cacheKey (CacheEntry.make ctime size info)) ;;;
  match binaryData r with
  | Some binaryData => ret (WithBinaryData binaryData info)
  | None => ret (WithSourceCode (default [] (sourceCode r)) info)
  end.

(** [getHashForPath] and [getHashForPathSync] *)
Definition getHashForPath (absoluteFilePath : string) : Method Facts :=
  self <- getThis ;;
  let cacheKey := cacheKeyOf self absoluteFilePath in
  let cacheEntry := changeCache self !! cacheKey in
  if failOnCacheMiss self then
    match cacheEntry with
    | None =>
      throw (Error ("Asked for " +:+ absoluteFilePath +:+ " but it was not precompiled!"))
    | Some cacheEntry => ret (Stored (CacheEntry.info cacheEntry))
    end
  else
    stat <- liftIO (fsStat absoluteFilePath) ;;
    let ctime := Stats.ctime stat in
    let size := Stats.size stat in
    if negb (Stats.isFile stat) then
      throw (Error ("Can't stat " +:+ absoluteFilePath))
    else
      match cacheEntry with
      | Some cacheEntry =>
        if (CacheEntry.ctime cacheEntry >=? ctime)
           && (CacheEntry.size cacheEntry =? size)
        then ret (Stored (CacheEntry.info cacheEntry))
        else
          updateChangeCache (delete "cacheEntry") ;;;
          recompute absoluteFilePath cacheKey ctime size
      | None => recompute absoluteFilePath cacheKey ctime size
      end.

(** ** JSON, as [JSON.stringify] writes it and [JSON.parse] reads it

    Numbers are the integers: the snapshot holds timestamps in milliseconds
    and sizes in bytes. A number with a fraction or an exponent is not
    read. Text is a list of characters. *)

Module JSON.

#[warnings="-register-all"]
Inductive value :=
| Null
| Bool (b : bool)
| Number (n : Z)
| Str (s : string)
| Array (elements : list value)
| Object (members : list (string * value)).

Definition quoteChar : ascii := ascii_of_nat 34.
Definition chars (s : string) : list ascii := list_ascii_of_string s.
Definition code (c : ascii) : Z := Z.of_N (N_of_ascii c).
Definition char (n : Z) : ascii := ascii_of_N (Z.to_N n).

(** *** Writing *)

Fixpoint printUint (u : Decimal.uint) : list ascii :=
  match u with
  | Decimal.Nil => []
  | Decimal.D0 u => "0"%char :: printUint u
  | Decimal.D1 u => "1"%char :: printUint u
  | Decimal.D2 u => "2"%char :: printUint u
  | Decimal.D3 u => "3"%char :: printUint u
  | Decimal.D4 u => "4"%char :: printUint u
  | Decimal.D5 u => "5"%char :: printUint u
  | Decimal.D6 u => "6"%char :: printUint u
  | Decimal.D7 u => "7"%char :: printUint u
  | Decimal.D8 u => "8"%char :: printUint u
  | Decimal.D9 u => "9"%char :: printUint u
  end.

Definition printNumber (n : Z) : list ascii :=
  match Z.to_int n with
  | Decimal.Pos u => printUint u
  | Decimal.Neg u => "-"%char :: printUint u
  end.

(** One character of a string literal: the two-character escapes, a
    [\u00xx] escape for the other control characters, else itself. *)
Definition escapeChar (c : ascii) : list ascii :=
  let n := code c in
  if n =? 34 then ["\"%char; quoteChar]
  else if n =? 92 then ["\"%char; "\"%char]
  else if n =? 8 then ["\"%char; "b"%char]
  else if n =? 12 then ["\"%char; "f"%char]
  else if n =? 10 then ["\"%char; "n"%char]
  else if n =? 13 then ["\"%char; "r"%char]
  else if n =? 9 then ["\"%char; "t"%char]
  else if n <? 32 then
    ["\"%char; "u"%char; "0"%char; "0"%char;
     SHA1.hexDigit (n / 16); SHA1.hexDigit (n mod 16)]
  else [c].

Definition quote (s : string) : list ascii :=
  quoteChar :: concat (map escapeChar (chars s)) ++ [quoteChar].

Fixpoint print (v : value) : list ascii :=
  match v with
  | Null => chars "null"
  | Bool true => chars "true"
  | Bool false => chars "false"
  | Number n => printNumber n
  | Str s => quote s
  | Array elements =>
    "["%char ::
    (fix printElements (l : list value) : list ascii :=
       match l with
       | [] => []
       | x :: l' =>
         print x ++ match l' with
                    | [] => []
                    | _ :: _ => ","%char :: printElements l'
                    end
       end) elements ++ ["]"%char]
  | Object members =>
    "{"%char ::
    (fix printMembers (l : list (string * value)) : list ascii :=
       match l with
       | [] => []
       | (k, x) :: l' =>
         quote k ++ ":"%char :: print x
               ++ match l' with
                  | [] => []
                  | _ :: _ => ","%char :: printMembers l'
                  end
       end) members ++ ["}"%char]
  end.

Definition stringify (v : value) : string := string_of_list_ascii (print v).

(** *** Reading *)

Definition isWhitespace (c : ascii) : bool :=
  let n := code c in (n =? 32) || (n =? 9) || (n =? 10) || (n =? 13).

Fixpoint skipWhitespace (s : list ascii) : list ascii :=
  match s with
  | c :: r => if isWhitespace c then skipWhitespace r else s
  | [] => []
  end.

Definition digitOf (c : ascii) : option (Decimal.uint -> Decimal.uint) :=
  match code c - 48 with
  | 0 => Some Decimal.D0 | 1 => Some Decimal.D1 | 2 => Some Decimal.D2
  | 3 => Some Decimal.D3 | 4 => Some Decimal.D4 | 5 => Some Decimal.D5
  | 6 => Some Decimal.D6 | 7 => Some Decimal.D7 | 8 => Some Decimal.D8
  | 9 => Some Decimal.D9
  | _ => None
  end.

Fixpoint parseDigits (s : list ascii) : Decimal.uint * list ascii :=
  match s with
  | c :: r =>
    match digitOf c with
    | Some d => let '(u, r') := parseDigits r in (d u, r')
    | None => (Decimal.Nil, s)
    end
  | [] => (Decimal.Nil, [])
  end.

(** The character after the digits may not continue the number. *)
Definition continuesNumber (s : list ascii) : bool :=
  match s with
  | c :: _ => let n := code c in (n =? 46) || (n =? 101) || (n =? 69)
  | [] => false
  end.

Definition splitSign (s : list ascii) : bool * list ascii :=
  match s with
  | c :: r => if code c =? 45 then (true, r) else (false, s)
  | [] => (false, s)
  end.

(** [0], or digits that do not start with [0]. *)
Definition isInteger (u : Decimal.uint) : bool :=
  match u with
  | Decimal.Nil => false
  | Decimal.D0 Decimal.Nil => true
  | Decimal.D0 _ => false
  | _ => true
  end.

(** An optional minus sign, then an integer. *)
Definition parseNumber (s : list ascii) : option (Z * list ascii) :=
  let '(negative, s) := splitSign s in
  let '(u, r) := parseDigits s in
  if isInteger u && negb (continuesNumber r)
  then Some (Z.of_int (if negative then Decimal.Neg u else Decimal.Pos u), r)
  else None.

Definition hexValue (c : ascii) : option Z :=
  let n := code c in
  if between 48 57 n then Some (n - 48)
  else if between 97 102 n then Some (n - 87)
  else if between 65 70 n then Some (n - 55)
  else None.

(** The characters a [\uXXXX] escape stands for: the UTF-8 bytes of the
    code unit; an escaped surrogate is read as U+FFFD. *)
Definition unescaped (n : Z) : list ascii :=
  map asciiOfByte
      (utf8OfCodePoint (if between 0xD800 0xDFFF n then replacementChar else n)).

Definition prepend (cs : list ascii) (r : option (list ascii * list ascii))
  : option (list ascii * list ascii) :=
  match r with
  | Some (s, rest) => Some (cs ++ s, rest)
  | None => None
  end.

(** The characters of a string literal after its opening quote, and what
    follows the closing quote. *)
Fixpoint parseChars (s : list ascii) : option (list ascii * list ascii) :=
  match s with
  | [] => None
  | c :: r =>
    let n := code c in
    if n =? 34 then Some ([], r)
    else if n =? 92 then
      match r with
      | e :: r' =>
        let m := code e in
        if (m =? 34) || (m =? 92) || (m =? 47) then prepend [e] (parseChars r')
        else if m =? 98 then prepend [char 8] (parseChars r')
        else if m =? 102 then prepend [char 12] (parseChars r')
        else if m =? 110 then prepend [char 10] (parseChars r')
        else if m =? 114 then prepend [char 13] (parseChars r')
        else if m =? 116 then prepend [char 9] (parseChars r')
        else if m =? 117 then
          match r' with
          | h3 :: h2 :: h1 :: h0 :: r'' =>
            match hexValue h3, hexValue h2, hexValue h1, hexValue h0 with
            | Some x3, Some x2, Some x1, Some x0 =>
              prepend (unescaped (x3 * 4096 + x2 * 256 + x1 * 16 + x0))
                      (parseChars r'')
            | _, _, _, _ => None
            end
          | _ => None
          end
        else None
      | [] => None
      end
    else if n <? 32 then None
    else prepend [c] (parseChars r)
  end.

Definition parseString (s : list ascii) : option (string * list ascii) :=
  match parseChars s with
  | Some (cs, rest) => Some (string_of_list_ascii cs, rest)
  | None => None
  end.

Definition expect (word : string) (v : value) (s : list ascii)
  : option (value * list ascii) :=
  if bool_decide (take (length (chars word)) s = chars word)
  then Some (v, drop (length (chars word)) s)
  else None.

Fixpoint parseValue (fuel : nat) (s : list ascii) {struct fuel}
  : option (value * list ascii) :=
  match fuel with
  | O => None
  | S fuel =>
    match skipWhitespace s with
    | [] => None
    | c :: r =>
      let n := code c in
      if n =? 123 then
        match skipWhitespace r with
        | c' :: r' =>
          if code c' =? 125 then Some (Object [], r')
          else
            match parseMembers fuel r with
            | Some (ms, rest) => Some (Object ms, rest)
            | None => None
            end
        | [] => None
        end
      else if n =? 91 then
        match skipWhitespace r with
        | c' :: r' =>
          if code c' =? 93 then Some (Array [], r')
          else
            match parseElements fuel r with
            | Some (vs, rest) => Some (Array vs, rest)
            | None => None
            end
        | [] => None
        end
      else if n =? 34 then
        match parseString r with
        | Some (str, rest) => Some (Str str, rest)
        | None => None
        end
      else if n =? 110 then expect "null" Null (c :: r)
      else if n =? 116 then expect "true" (Bool true) (c :: r)
      else if n =? 102 then expect "false" (Bool false) (c :: r)
      else
        match parseNumber (c :: r) with
        | Some (z, rest) => Some (Number z, rest)
        | None => None
        end
    end
  end
with parseMembers (fuel : nat) (s : list ascii) {struct fuel}
  : option (list (string * value) * list ascii) :=
  match fuel with
  | O => None
  | S fuel =>
    match skipWhitespace s with
    | c :: r =>
      if code c =? 34 then
        match parseString r with
        | Some (k, r1) =>
          match skipWhitespace r1 with
          | c1 :: r2 =>
            if code c1 =? 58 then
              match parseValue fuel r2 with
              | Some (v, r3) =>
                match skipWhitespace r3 with
                | c3 :: r4 =>
                  if code c3 =? 44 then
                    match parseMembers fuel r4 with
                    | Some (ms, rest) => Some ((k, v) :: ms, rest)
                    | None => None
                    end
                  else if code c3 =? 125 then Some ([(k, v)], r4)
                  else None
                | [] => None
                end
              | None => None
              end
            else None
          | [] => None
          end
        | None => None
        end
      else None
    | [] => None
    end
  end
with parseElements (fuel : nat) (s : list ascii) {struct fuel}
  : option (list value * list ascii) :=
  match fuel with
  | O => None
  | S fuel =>
    match parseValue fuel s with
    | Some (v, r1) =>
      match skipWhitespace r1 with
      | c :: r2 =>
        if code c =? 44 then
          match parseElements fuel r2 with
          | Some (vs, rest) => Some (v :: vs, rest)
          | None => None
          end
        else if code c =? 93 then Some ([v], r2)
        else None
      | [] => None
      end
    | None => None
    end
  end.

(** [JSON.parse(text)]; [None] is a [SyntaxError]. The recursion of the
    reader is bounded by the length of the text. *)
Definition parse (text : string) : option value :=
  let s := chars text in
  match parseValue (S (length s)) s with
  | Some (v, rest) =>
    match skipWhitespace rest with
    | [] => Some v
    | _ :: _ => None
    end
  | None => None
  end.

(** Property access [o[name]] on a parsed object: the last member of
    that name. *)
Fixpoint get (name : string) (members : list (string * value)) : option value :=
  match members with
  | [] => None
  | (k, v) :: rest =>
    match get name rest with
    | Some v' => Some v'
    | None => if bool_decide (k = name) then Some v else None
    end
  end.

(** *** Notions used to relate reading and writing *)

(** Induction on values, with the hypothesis on every element of an array
    and on every member of an object. *)
Section value_induction.
Variable P : value -> Prop.
Hypothesis HNull : P Null.
Hypothesis HBool : forall b, P (Bool b).
Hypothesis HNumber : forall n, P (Number n).
Hypothesis HStr : forall s, P (Str s).
Hypothesis HArray : forall l, Forall P l -> P (Array l).
Hypothesis HObject : forall ms, Forall (fun m => P m.2) ms -> P (Object ms).

Fixpoint value_induction (v : value) : P v :=
  match v with
  | Null => HNull
  | Bool b => HBool b
  | Number n => HNumber n
  | Str s => HStr s
  | Array l =>
    HArray l
      ((fix all (l : list value) : Forall P l :=
          match l with
          | [] => List.Forall_nil P
          | x :: l' =>
            @List.Forall_cons _ P x l' (value_induction x) (all l')
          end) l)
  | Object ms =>
    HObject ms
      ((fix all (ms : list (string * value)) : Forall (fun m => P m.2) ms :=
          match ms with
          | [] => List.Forall_nil _
          | (k, x) :: ms' =>
            @List.Forall_cons _ (fun m => P m.2) (k, x) ms'
                              (value_induction x) (all ms')
          end) ms)
  end.
End value_induction.

(** The two list printers inside [print]. *)
Fixpoint printElements (l : list value) : list ascii :=
  match l with
  | [] => []
  | x :: l' =>
    print x ++ match l' with
               | [] => []
               | _ :: _ => ","%char :: printElements l'
               end
  end.

Fixpoint printMembers (l : list (string * value)) : list ascii :=
  match l with
  | [] => []
  | (k, x) :: l' =>
    quote k ++ ":"%char :: print x
          ++ match l' with
             | [] => []
             | _ :: _ => ","%char :: printMembers l'
             end
  end.

(** What may follow a number: nothing, or a character that is neither a
    digit nor the start of a fraction or an exponent. *)
Definition endsNumber (rest : list ascii) : bool :=
  match rest with
  | [] => true
  | c :: _ => negb (bool_decide (is_Some (digitOf c))) && negb (continuesNumber rest)
  end.

(** The first character of a written value. *)
Definition startsValue (c : ascii) : bool :=
  let n := code c in
  (n =? 123) || (n =? 91) || (n =? 34) || (n =? 110) || (n =? 116)
  || (n =? 102) || (n =? 45) || between 48 57 n.

(** Fuel that suffices to read a value back. *)
Fixpoint fuelFor (v : value) : nat :=
  match v with
  | Array l =>
    S ((fix elements (l : list value) : nat :=
          match l with
          | [] => O
          | x :: l' => S (fuelFor x + elements l')
          end) l)
  | Object ms =>
    S ((fix members (ms : list (string * value)) : nat :=
          match ms with
          | [] => O
          | (_, x) :: ms' => S (fuelFor x + members ms')
          end) ms)
  | _ => 1%nat
  end.

Fixpoint fuelForElements (l : list value) : nat :=
  match l with
  | [] => O
  | x :: l' => S (fuelFor x + fuelForElements l')
  end.

Fixpoint fuelForMembers (ms : list (string * value)) : nat :=
  match ms with
  | [] => O
  | (_, x) :: ms' => S (fuelFor x + fuelForMembers ms')
  end.

(** The statement proved of every value. *)
Definition readsBack (v : value) : Prop :=
  forall (fuel : nat) (rest : list ascii),
    (fuelFor v <= fuel)%nat ->
    endsNumber rest = true ->
    parseValue fuel (print v ++ rest) = Some (v, rest).

End JSON.

(** ** The snapshot: [changeCache] as a JSON value and back *)

Definition infoToJson (i : Info.t) : JSON.value :=
  JSON.Object
    [("hash", JSON.Str (Info.hash i));
     ("isMinified", JSON.Bool (Info.isMinified i));
     ("isInNodeModules", JSON.Bool (Info.isInNodeModules i));
     ("hasSourceMap", JSON.Bool (Info.hasSourceMap i));
     ("isFileBinary", JSON.Bool (Info.isFileBinary i))].

Definition entryToJson (e : CacheEntry.t) : JSON.value :=
  JSON.Object
    [("ctime", JSON.Number (CacheEntry.ctime e));
     ("size", JSON.Number (CacheEntry.size e));
     ("info", infoToJson (CacheEntry.info e))].

(** The object [this.changeCache] as [JSON.stringify] sees it. The keys are
    written in the order of [map_to_list]; no reader depends on the
    order. *)
Definition changeCacheToJson (m : gmap string CacheEntry.t) : JSON.value :=
  JSON.Object (map (fun kv => (kv.1, entryToJson kv.2)) (map_to_list m)).

Definition getStr (name : string) (ms : list (string * JSON.value)) : option string :=
  match JSON.get name ms with Some (JSON.Str s) => Some s | _ => None end.
Definition getBool (name : string) (ms : list (string * JSON.value)) : option bool :=
  match JSON.get name ms with Some (JSON.Bool b) => Some b | _ => None end.
Definition getNumber (name : string) (ms : list (string * JSON.value)) : option Z :=
  match JSON.get name ms with Some (JSON.Number n) => Some n | _ => None end.

Definition infoOfJson (v : JSON.value) : option Info.t :=
  match v with
  | JSON.Object ms =>
    match getStr "hash" ms, getBool "isMinified" ms, getBool "isInNodeModules" ms,
          getBool "hasSourceMap" ms, getBool "isFileBinary" ms with
    | Some h, Some a, Some b, Some c, Some d => Some (Info.make h a b c d)
    | _, _, _, _, _ => None
    end
  | _ => None
  end.

Definition entryOfJson (v : JSON.value) : option CacheEntry.t :=
  match v with
  | JSON.Object ms =>
    match getNumber "ctime" ms, getNumber "size" ms, JSON.get "info" ms with
    | Some c, Some s, Some i =>
      match infoOfJson i with
      | Some i => Some (CacheEntry.make c s i)
      | None => None
      end
    | _, _, _ => None
    end
  | _ => None
  end.

Fixpoint entriesOfJson (ms : list (string * JSON.value))
  : option (list (string * CacheEntry.t)) :=
  match ms with
  | [] => Some []
  | (k, v) :: rest =>
    match entryOfJson v, entriesOfJson rest with
    | Some e, Some es => Some ((k, e) :: es)
    | _, _ => None
    end
  end.

(** The parsed snapshot as a typed mapping. A later member of the same
    name overrides an earlier one. [None]: the value is not a mapping of
    entries, and no typed instance stands for it. *)
Definition changeCacheOfJson (v : JSON.value) : option (gmap string CacheEntry.t) :=
  match v with
  | JSON.Object ms =>
    match entriesOfJson ms with
    | Some es => Some (list_to_map (reverse es))
    | None => None
    end
  | _ => None
  end.

(** ** Persistence *)

(** [zlib.gzip] and [zlib.gunzip]; [None] is the error of [gunzip] on data
    that is not a gzip stream. *)
Class Zlib := {
  gzip : Buffer -> Buffer;
  gunzip : Buffer -> option Buffer
}.

(** Compression is lossless. *)
Class ZlibLossless (z : Zlib) : Prop :=
  gunzip_gzip : forall b : Buffer, gunzip (gzip b) = Some b.

(** [save(filePath)] *)
Definition save `{Zlib} (filePath : string) : Method unit :=
  self <- getThis ;;
  let buf := gzip (bytesOfString (JSON.stringify (changeCacheToJson (changeCache self)))) in
  liftIO (fsWriteFile filePath buf).

(** [static loadFromFile(file, failOnCacheMiss=true)]. The one argument of
    [new FileChangedCache(failOnCacheMiss)] is the constructor's
    [appRoot]. *)
Definition loadFromFile `{Zlib} (file : string) (failOnCacheMiss : option bool)
  : IO FileChangedCache :=
  let failOnCacheMiss := default true failOnCacheMiss in
  let ret_ := constructor (VBool failOnCacheMiss) None in
  buf <- fsReadFile file ;;
  match gunzip buf with
  | None => throw ZlibError
  | Some text =>
    match JSON.parse (stringOfBytes text) with
    | None => throw SyntaxError
    | Some v =>
      match changeCacheOfJson v with
      | None => throw NotASnapshot
      | Some m =>
        ret (setChangeCache ret_ m)
      end
    end
  end.

(** A store-only stand-in for zlib, to run [save] and [loadFromFile]. *)
Definition storeOnly : Zlib := {| gzip := fun b => b; gunzip := fun b => Some b |}.

(** ** Notions used to state the properties *)

(** Run a computation [k] times in a row, collecting the outcomes. *)
Fixpoint repeatedly {S A} (k : nat) (m : Eff S A) (s : S) : list (Outcome A) * S :=
  match k with
  | O => ([], s)
  | S k' =>
    match m s with
    | (r, s') =>
      match repeatedly k' m s' with
      | (rs, s'') => (r :: rs, s'')
      end
    end
  end.

(** A world that holds one regular file. *)
Definition singleFile (path : string) (ctime : Z) (buf : Buffer) : World :=
  {| files := {[ path := {| stats := Stats.make ctime (Z.of_nat (length buf)) true;
                            data := buf |} ]};
     clock := ctime;
     calls := [] |}.

(** The [contentHash] the cache derives for a file with the given bytes. *)
Definition contentHash (buf : Buffer) : option string :=
  match calculateHashForFile "/f" (singleFile "/f" 0 buf) with
  | (Return r, _) => Some (digest r)
  | (Throw _, _) => None
  end.

(** The characters [containsControlCharacters] counts, and their number in
    a string. *)
Definition isControl (c : Z) : bool := (c =? 65536) || (c <? 8).

Fixpoint controlCharacters (str : JSString) : Z :=
  match str with
  | [] => 0
  | c :: rest => (if isControl c then 1 else 0) + controlCharacters rest
  end.

(** The minification rule as the specification words it: window length and
    newline count are both taken in the first 1024 characters. *)
Definition minifiedInWindow (source : JSString) : bool :=
  let window := take 1024 source in
  let windowLength := Z.of_nat (length window) in
  let newlineCount := newlineLoop window 0 in
  if newlineCount =? 0 then windowLength >? 80
  else quotLt 80 1 windowLength newlineCount.

(** The binary-garbage rule as the specification words it: binary when more
    than 16 control characters, text when none or when their ratio is
    below 2%, binary otherwise. [true] is binary. *)
Definition looksBinary (str : JSString) : bool :=
  let n := controlCharacters str in
  if n >? 16 then true
  else if (n =? 0) || quotLt n (Z.of_nat (length str)) 2 100 then false
  else true.

(** The cache after a call, whatever its outcome. *)
Definition cacheAfter {A} (r : Outcome A * Frame) : gmap string CacheEntry.t :=
  changeCache (this r.2).

(** A file is classified as text when [detectFileEncoding] names an
    encoding for its bytes. *)
Definition classifiedAsText (buf : Buffer) : Prop :=
  exists x, detectFileEncoding buf = Some (DetectedName x).

(** A permissive cache rooted at [/app/] that knows two files, one of them
    under the key [cacheEntry], in a world where [/app/a.js] has changed
    since it was cached. *)
Definition staleFrame : Frame :=
  {| this :=
       {| appRoot := VString "/app/";
          failOnCacheMiss := false;
          changeCache :=
            {[ "cacheEntry" :=
                 CacheEntry.make 5 2
                   (Info.make "c22b5f9178342609428d6f51b2c5af4c0bde6a42"
                              false false false false);
               "a.js" :=
                 CacheEntry.make 1 3
                   (Info.make "0beec7b5ea3f0fdbc95d0dd47f3c5bc275da8a33"
                              false false false false) ]} |};
     world :=
       {| files :=
            {[ "/app/cacheEntry" :=
                 {| stats := Stats.make 5 2 true; data := bytesOfString "hi" |};
               "/app/a.js" :=
                 {| stats := Stats.make 2 3 true; data := bytesOfString "abc" |} ]};
          clock := 10;
          calls := [] |} |}.

(** A strict cache that knows [/a.js] only, in an empty world. *)
Definition strictFrame : Frame :=
  {| this :=
       {| appRoot := VUndefined;
          failOnCacheMiss := true;
          changeCache :=
            {[ "/a.js" :=
                 CacheEntry.make 1 3
                   (Info.make "a9993e364706816aba3e25717850c26c9cd0d89d"
                              false false false false) ]} |};
     world := {| files := ∅; clock := 0; calls := [] |} |}.

(** A permissive, empty cache in a world whose one file is 40 NUL bytes. *)
Definition binaryFrame : Frame :=
  {| this := constructor (VString "/app") None;
     world := singleFile "/app/blob" 7 (repeat 0 40) |}.

(** A text of 22 ASCII characters. *)
Definition greeting : JSString := codeUnits "hello, wonderful world".

(** Text made of ASCII characters none of which is counted as a control
    character. *)
Definition plainAscii (text : JSString) : Prop :=
  Forall (fun c => 8 <= c < 128) text.

(** ** Further notions *)

(** A filesystem call that reads metadata or content of [path]. *)
Definition readsOnly (path : string) (c : FsCall) : Prop :=
  c = Stat path \/ exists options, c = ReadFile path options.

(** A permissive, empty cache rooted at [/app/] in a world that holds the
    text file [/app/a.js] and the directory [/app/lib]. *)
Definition freshFrame : Frame :=
  {| this := constructor (VString "/app/") None;
     world :=
       {| files :=
            {[ "/app/a.js" :=
                 {| stats := Stats.make 2 3 true; data := bytesOfString "abc" |};
               "/app/lib" :=
                 {| stats := Stats.make 1 4096 false; data := [] |} ]};
          clock := 10;
          calls := [] |} |}.

(** The number of newline characters of a text. *)
Fixpoint newlines (source : JSString) : Z :=
  match source with
  | [] => 0
  | c :: rest => (if c =? 10 then 1 else 0) + newlines rest
  end.

(** [pat] occurs somewhere in [s]. *)
Fixpoint occursIn (pat s : JSString) : bool :=
  isPrefixOf pat s ||
  match s with
  | [] => false
  | _ :: s' => occursIn pat s'
  end.

(** The marker [hasSourceMap] looks for. *)
Definition sourceMapMarker : JSString := codeUnits "//# sourceMap".

(** The same letters, ignoring the case of ASCII letters. *)
Definition sameLettersIgnoreCase (a b : string) : Prop :=
  map upperAscii (list_ascii_of_string a) = map upperAscii (list_ascii_of_string b).

(** No character of the path is a slash or a backslash. *)
Fixpoint noSeparator (s : string) : Prop :=
  match s with
  | EmptyString => True
  | String c s' => isSeparator c = false /\ noSeparator s'
  end.

(** A permissive cache without root that knows [/a.js], in a world that
    holds that file, unchanged. *)
Definition rootlessFrame : Frame :=
  {| this :=
       {| appRoot := VUndefined;
          failOnCacheMiss := false;
          changeCache :=
            {[ "/a.js" :=
                 CacheEntry.make 1 3
                   (Info.make "a9993e364706816aba3e25717850c26c9cd0d89d"
                              false false false false) ]} |};
     world := singleFile "/a.js" 1 (bytesOfString "abc") |}.

(** The facts of a file that holds [abc]. *)
Definition abcInfo : Info.t :=
  Info.make "a9993e364706816aba3e25717850c26c9cd0d89d" false false false false.

(** * Properties *)

(** ** Test vectors and examples from the specification *)

Example sha1_empty :
  SHA1.hex [] = "da39a3ee5e6b4b0d3255bfef95601890afd80709".
Proof. vm_compute. reflexivity. Qed.

Example sha1_abc :
  SHA1.hex (bytesOfString "abc") = "a9993e364706816aba3e25717850c26c9cd0d89d".
Proof. vm_compute. reflexivity. Qed.

Example sha1_two_blocks :
  SHA1.hex (bytesOfString
    "abcdbcdecdefdefgefghfghighijhijkijkljklmklmnlmnomnopnopq")
  = "84983e441c3bd26ebaae4aa1f95129e5e54670f1".
Proof. vm_compute. reflexivity. Qed.

Example utf8Decode_samples :
  utf8Decode [0x48; 0xC3; 0xA9; 0xE4; 0xB8; 0xAD] = [0x48; 0xE9; 0x4E2D]
  /\ utf8Decode [0xF0; 0x9F; 0x98; 0x80] = [0xD83D; 0xDE00]
  /\ utf8Decode [0xFF; 0x41] = [0xFFFD; 0x41]
  /\ utf8Decode [0xE4; 0xB8] = [0xFFFD]
  /\ utf8Decode [0xE4; 0xB8; 0x41] = [0xFFFD; 0x41]
  /\ utf8Decode [0xC0; 0x80] = [0xFFFD; 0xFFFD].
Proof. repeat split; reflexivity. Qed.

Example utf8Encode_samples :
  utf8Encode [0x48; 0xE9; 0x4E2D; 0xD83D; 0xDE00]
  = [0x48; 0xC3; 0xA9; 0xE4; 0xB8; 0xAD; 0xF0; 0x9F; 0x98; 0x80]
  /\ utf8Encode [0xD83D] = [0xEF; 0xBF; 0xBD].
Proof. split; reflexivity. Qed.

Example utf16leDecode_samples :
  utf16leDecode [0x2D; 0x4E; 0x3D; 0xD8; 0x00] = [0x4E2D; 0xD83D].
Proof. reflexivity. Qed.

Example stringify_sample :
  JSON.stringify
    (JSON.Object [("a\b", JSON.Array [JSON.Number (-12); JSON.Null; JSON.Bool true]);
                  ("s", JSON.Str (String (ascii_of_nat 10) "x"))])
  = String.concat (String (ascii_of_nat 34) "")
      ["{"; "a\\b"; ":[-12,null,true],"; "s"; ":"; "\nx"; "}"].
Proof. vm_compute. reflexivity. Qed.

Example isInNodeModules_dep :
  isInNodeModules "/project/node_modules/pkg/index.js" = true.
Proof. reflexivity. Qed.

Example isInNodeModules_src : isInNodeModules "/project/src/index.js" = false.
Proof. reflexivity. Qed.

Example isInNodeModules_windows :
  isInNodeModules "C:\app\Node_Modules\x.js" = true.
Proof. reflexivity. Qed.

Example hasSourceMap_last_line :
  hasSourceMap (codeUnits "var a;" ++ [10] ++ codeUnits "//# sourceMappingURL=a.map")
  = true.
Proof. reflexivity. Qed.

Example hasSourceMap_earlier_line :
  hasSourceMap (codeUnits "//# sourceMappingURL=a.map" ++ [10] ++ codeUnits "var a;")
  = false.
Proof. reflexivity. Qed.

Example minified_100_chars : contentsAreMinified (repeat 97 100) = true.
Proof. reflexivity. Qed.

Example minified_5_lines :
  contentsAreMinified (concat (repeat (repeat 97 19 ++ [10]) 5)) = false.
Proof. reflexivity. Qed.

(** ** The binary-garbage classifier *)

Lemma controlCharacters_nonneg str : 0 <= controlCharacters str.
Proof.
  induction str as [|c str IH]; cbn [controlCharacters]; [lia|].
  destruct (isControl c); lia.
Qed.

(** The loop returns early exactly when the running count passes 16, and
    otherwise ends with the number of control characters added to its
    start value. *)
Lemma controlLoop_count str : forall k, k <= 16 ->
  controlLoop str k
  = if k + controlCharacters str >? 16 then inr tt
    else inl (k + controlCharacters str).
Proof.
  induction str as [|c str IH]; intros k Hk.
  - cbn [controlLoop controlCharacters]. rewrite Z.add_0_r.
    destruct (k >? 16) eqn:E; [lia | reflexivity].
  - cbn [controlLoop controlCharacters].
    pose proof (controlCharacters_nonneg str) as Hn.
    fold (isControl c). destruct (isControl c).
    + destruct (k + 1 >? 16) eqn:E.
      * destruct (k + (1 + controlCharacters str) >? 16) eqn:E'; [reflexivity | lia].
      * rewrite IH by lia. rewrite Z.add_assoc. reflexivity.
    + destruct (k >? 16) eqn:E; [lia|]. rewrite IH by lia. reflexivity.
Qed.

(** What the code computes, in closed form: binary when more than 16
    control characters, or when there are some and FEWER than 2% of the
    characters are control characters. *)
Lemma containsControlCharacters_closed_form str :
  containsControlCharacters str
  = let n := controlCharacters str in
    (n >? 16) || (negb (n =? 0) && quotLt n (Z.of_nat (length str)) 2 100).
Proof.
  unfold containsControlCharacters. rewrite controlLoop_count by lia.
  rewrite Z.add_0_l. cbv zeta.
  destruct (controlCharacters str >? 16); [reflexivity|].
  destruct (controlCharacters str =? 0); reflexivity.
Qed.

(** C2. The specification declares text when the ratio of control
    characters is below 2% and binary otherwise; the last line of
    [containsControlCharacters] returns [true], binary, exactly when the
    ratio is below 2%. On a string of 100 characters with a single NUL
    (ratio 1%) the specified rule says text and the code answers binary;
    with ten NULs (ratio 10%) the rule says binary and the code answers
    text. *)
Theorem C2_low_ratio_is_declared_binary :
  let sparse := 0 :: repeat 97 99 in
  let dense := repeat 0 10 ++ repeat 97 90 in
  controlCharacters sparse = 1 /\ length sparse = 100%nat
  /\ looksBinary sparse = false /\ containsControlCharacters sparse = true
  /\ controlCharacters dense = 10 /\ length dense = 100%nat
  /\ looksBinary dense = true /\ containsControlCharacters dense = false.
Proof. vm_compute. repeat split; reflexivity. Qed.

(** Where the code and the specified rule agree: no control character, or
    more than 16. *)
Lemma containsControlCharacters_agrees_outside_ratio str :
  controlCharacters str = 0 \/ 16 < controlCharacters str ->
  containsControlCharacters str = looksBinary str.
Proof.
  intros H. rewrite containsControlCharacters_closed_form.
  unfold looksBinary. cbv zeta.
  destruct H as [H|H].
  - rewrite H. reflexivity.
  - destruct (controlCharacters str >? 16) eqn:E; [reflexivity | lia].
Qed.

(** ** The minification classifier *)

Lemma newlineLoop_shift source : forall k,
  newlineLoop source k = k + newlineLoop source 0.
Proof.
  induction source as [|c source IH]; intros k; cbn [newlineLoop].
  - lia.
  - destruct (c =? 10).
    + rewrite (IH (k + 1)), (IH (0 + 1)). lia.
    + apply IH.
Qed.

(** The code agrees with the windowed rule on every text that fits in the
    window. *)
Lemma contentsAreMinified_short source :
  (length source <= 1024)%nat ->
  contentsAreMinified source = minifiedInWindow source.
Proof.
  intros H. unfold contentsAreMinified, minifiedInWindow.
  rewrite take_ge by lia. cbv zeta.
  destruct (Z.of_nat (length source) >? 1024) eqn:E; [lia | reflexivity].
Qed.

(** C5. The window length is capped at 1024 characters, and the newline
    loop of [contentsAreMinified] runs over the whole text. For 1024
    letters followed by 13 newlines the window holds no newline and is
    longer than 80, so the specified rule says minified; the code divides
    1024 by 13 and answers not minified. *)
Theorem C5_newlines_counted_beyond_window :
  let source := repeat 97 1024 ++ repeat 10 13 in
  newlineLoop (take 1024 source) 0 = 0
  /\ Z.of_nat (length (take 1024 source)) = 1024
  /\ minifiedInWindow source = true
  /\ newlineLoop source 0 = 13
  /\ contentsAreMinified source = false.
Proof. vm_compute. repeat split; reflexivity. Qed.

(** ** Lookup *)

Lemma repeat_app_cons {A} (x : A) k l : repeat x k ++ x :: l = x :: repeat x k ++ l.
Proof. induction k as [|k IH]; [reflexivity|]. cbn [repeat app]. now rewrite IH. Qed.

(** One permissive lookup of a path whose entry matches the metadata. *)
Lemma getHashForPath_hit self fs clk cs absoluteFilePath e n :
  failOnCacheMiss self = false ->
  changeCache self !! cacheKeyOf self absoluteFilePath = Some e ->
  fs !! absoluteFilePath = Some n ->
  Stats.isFile (stats n) = true ->
  Stats.ctime (stats n) <= CacheEntry.ctime e ->
  CacheEntry.size e = Stats.size (stats n) ->
  getHashForPath absoluteFilePath
    {| this := self; world := {| files := fs; clock := clk; calls := cs |} |}
  = (Return (Stored (CacheEntry.info e)),
     {| this := self;
        world := {| files := fs; clock := clk;
                    calls := Stat absoluteFilePath :: cs |} |}).
Proof.
  intros Hmode Hentry Hfile HisFile Hctime Hsize.
  unfold getHashForPath, bind, getThis, liftIO, fsStat, logCall, ret.
  cbv zeta. cbn [this world files clock calls].
  rewrite Hmode, Hentry. cbn [this world files clock calls].
  rewrite Hfile. cbn [this world files clock calls]. rewrite HisFile.
  cbn [negb]. rewrite Hsize, Z.eqb_refl.
  replace (CacheEntry.ctime e >=? Stats.ctime (stats n)) with true
    by (symmetry; apply Z.geb_le; lia).
  reflexivity.
Qed.

(** C1. In permissive mode, when the key of the path has an entry whose
    timestamp is at least the current one and whose size is the current
    one (the path being a regular file, so that the metadata test is
    reached), the lookup returns the stored facts, leaves the cache as it
    is and calls [stat] only: no file content is read. Any number of
    lookups in a row return the same stored facts, and the calls they add
    are [stat] calls. *)
Theorem C1_hit_returns_stored_facts_without_reading
  (f : Frame) (absoluteFilePath : string) (e : CacheEntry.t) (n : Node) :
  failOnCacheMiss (this f) = false ->
  changeCache (this f) !! cacheKeyOf (this f) absoluteFilePath = Some e ->
  files (world f) !! absoluteFilePath = Some n ->
  Stats.isFile (stats n) = true ->
  Stats.ctime (stats n) <= CacheEntry.ctime e ->
  CacheEntry.size e = Stats.size (stats n) ->
  getHashForPath absoluteFilePath f
  = (Return (Stored (CacheEntry.info e)),
     {| this := this f; world := logCall (Stat absoluteFilePath) (world f) |})
  /\ forall k : nat,
     repeatedly k (getHashForPath absoluteFilePath) f
     = (repeat (Return (Stored (CacheEntry.info e))) k,
        {| this := this f;
           world := {| files := files (world f);
                       clock := clock (world f);
                       calls := repeat (Stat absoluteFilePath) k
                                  ++ calls (world f) |} |}).
Proof.
  destruct f as [self [fs clk cs]]. cbn [this world files clock calls].
  intros Hmode Hentry Hfile HisFile Hctime Hsize. split.
  - unfold logCall. cbn [files clock calls]. now apply getHashForPath_hit with n.
  - intros k. revert cs. induction k as [|k IH]; intros cs; [reflexivity|].
    cbn [repeatedly]. rewrite (getHashForPath_hit _ _ _ _ _ e n) by assumption.
    rewrite IH. cbn [repeat]. rewrite repeat_app_cons. reflexivity.
Qed.

(** The branches of [getHashForPath] that recompute: the outcome [H] of
    the first lookup fixes the entry it stored, which the second lookup
    finds and accepts. *)
Ltac after_recompute H n Hmode Hfile HisFile :=
  destruct (detectFileEncoding (data n)) as [[|?]|];
  cbn [this world files clock calls] in H; try discriminate;
  rewrite ?Hfile, ?HisFile in H; cbn [this world files clock calls] in H;
  injection H as <- <-; unfold logCall; cbn [this world files clock calls infoOf];
  (eapply (getHashForPath_hit _ _ _ _ _ (CacheEntry.make _ _ _) n);
   [ exact Hmode
   | unfold cacheKeyOf, setChangeCache; cbn [appRoot changeCache];
     apply lookup_insert_eq
   | exact Hfile | exact HisFile
   | cbn [CacheEntry.ctime]; lia | reflexivity ]).

(** X18. After a permissive lookup that returned, a second lookup of the
    same path returns the facts of the first from the cache, with a [stat]
    call and no read. *)
Lemma getHashForPath_again (f f' : Frame) (absoluteFilePath : string) (r : Facts) :
  failOnCacheMiss (this f) = false ->
  getHashForPath absoluteFilePath f = (Return r, f') ->
  getHashForPath absoluteFilePath f'
  = (Return (Stored (infoOf r)),
     {| this := this f'; world := logCall (Stat absoluteFilePath) (world f') |}).
Proof.
  destruct f as [self [fs clk cs]]. cbn [this world]. intros Hmode H.
  unfold getHashForPath, recompute, calculateHashForFile, bind, getThis, liftIO,
    updateChangeCache, throw, ret, fsStat, fsReadFile, fsReadFileWith, readBytes,
    logCall in H.
  cbv zeta in H. cbn [this world files clock calls] in H. rewrite Hmode in H.
  cbn [this world files clock calls] in H.
  destruct (fs !! absoluteFilePath) as [n|] eqn:Hfile; [|discriminate].
  cbn [this world files clock calls] in H.
  destruct (Stats.isFile (stats n)) eqn:HisFile; [|discriminate].
  cbn [negb this world files clock calls] in H.
  destruct (changeCache self !! cacheKeyOf self absoluteFilePath) as [e|] eqn:He.
  - destruct ((CacheEntry.ctime e >=? Stats.ctime (stats n))
              && (CacheEntry.size e =? Stats.size (stats n))) eqn:Hhit.
    + injection H as <- <-. unfold logCall. cbn [this world files clock calls].
      apply andb_true_iff in Hhit as [H1 H2].
      apply (getHashForPath_hit _ _ _ _ _ e n); try assumption; lia.
    + cbn [this world files clock calls] in H. rewrite Hfile, HisFile in H.
      after_recompute H n Hmode Hfile HisFile.
  - cbn [this world files clock calls] in H. rewrite Hfile, HisFile in H.
    after_recompute H n Hmode Hfile HisFile.
Qed.


(** X19. A lookup leaves alone every key that is neither the key of the
    path nor the fixed name [cacheEntry]. *)
Lemma getHashForPath_other_keys (f : Frame) (absoluteFilePath key : string) :
  key <> cacheKeyOf (this f) absoluteFilePath ->
  key <> "cacheEntry" ->
  cacheAfter (getHashForPath absoluteFilePath f) !! key = changeCache (this f) !! key.
Proof.
  intros Hkey Hname. destruct f as [self w].
  unfold cacheAfter, getHashForPath, recompute, calculateHashForFile, bind,
    getThis, liftIO, updateChangeCache, setChangeCache, throw, ret.
  cbn [this world].
  repeat (case_match; simplify_eq; cbn [this world changeCache snd] in * );
    rewrite ?lookup_insert_ne, ?lookup_delete_ne by congruence; reflexivity.
Qed.

(** C4. The eviction statement of [getHashForPath] is
    [delete this.changeCache.cacheEntry]: it removes the property named
    [cacheEntry], not the entry under [cacheKey]. A lookup of the changed
    file [/app/a.js] (key [a.js]) replaces the entry of [a.js] and also
    removes the entry of another file, stored under the key
    [cacheEntry]. *)
Theorem C4_stale_lookup_removes_entry_of_another_key :
  let after := cacheAfter (getHashForPath "/app/a.js" staleFrame) in
  cacheKeyOf (this staleFrame) "/app/a.js" = "a.js"
  /\ is_Some (changeCache (this staleFrame) !! "cacheEntry")
  /\ after !! "cacheEntry" = None
  /\ after !! "a.js"
     = Some (CacheEntry.make 2 3
               (Info.make "a9993e364706816aba3e25717850c26c9cd0d89d"
                          false false false false)).
Proof.
  vm_compute. repeat split; try reflexivity. eexists; reflexivity.
Qed.

(** ** Fact derivation *)

(** The two reads of [calculateHashForFile] on a regular file. *)
Lemma calculateHashForFile_regular (w : World) (absoluteFilePath : string) (n : Node) :
  files w !! absoluteFilePath = Some n ->
  Stats.isFile (stats n) = true ->
  calculateHashForFile absoluteFilePath w
  = match detectFileEncoding (data n) with
    | None =>
      (Return {| sourceCode := None; digest := SHA1.hex (data n);
                 binaryData := Some (data n) |},
       logCall (ReadFile absoluteFilePath None) w)
    | Some encoding =>
      (sourceCode <- fsReadFileWith absoluteFilePath encoding ;;
       ret {| sourceCode := Some sourceCode;
              digest := SHA1.hex (utf8Encode sourceCode);
              binaryData := None |})
        (logCall (ReadFile absoluteFilePath None) w)
    end.
Proof.
  intros Hfile HisFile.
  unfold calculateHashForFile, bind at 1. unfold fsReadFile, readBytes, logCall.
  cbv zeta. cbn [files]. rewrite Hfile, HisFile.
  destruct (detectFileEncoding (data n)); reflexivity.
Qed.

(** C9. For a regular file for which [detectFileEncoding] finds no
    encoding, [calculateHashForFile] returns [sourceCode: null], the raw
    bytes as [binaryData] and their SHA-1 as digest, after a single read.
    The permissive lookup that recomputes the file returns the raw bytes
    with facts whose hash is that digest, whose [isFileBinary] is true, and
    whose [isMinified] and [hasSourceMap] are the two classifiers applied
    to the empty string, both false; the same facts are stored. *)
Theorem C9_binary_file_facts
  (f : Frame) (absoluteFilePath : string) (n : Node) :
  failOnCacheMiss (this f) = false ->
  files (world f) !! absoluteFilePath = Some n ->
  Stats.isFile (stats n) = true ->
  detectFileEncoding (data n) = None ->
  (forall e,
     changeCache (this f) !! cacheKeyOf (this f) absoluteFilePath = Some e ->
     (CacheEntry.ctime e >=? Stats.ctime (stats n))
     && (CacheEntry.size e =? Stats.size (stats n)) = false) ->
  let info :=
    Info.make (SHA1.hex (data n)) (contentsAreMinified [])
              (isInNodeModules absoluteFilePath) (hasSourceMap []) true in
  calculateHashForFile absoluteFilePath (world f)
  = (Return {| sourceCode := None; digest := SHA1.hex (data n);
               binaryData := Some (data n) |},
     logCall (ReadFile absoluteFilePath None) (world f))
  /\ contentsAreMinified [] = false
  /\ hasSourceMap [] = false
  /\ (getHashForPath absoluteFilePath f).1 = Return (WithBinaryData (data n) info)
  /\ cacheAfter (getHashForPath absoluteFilePath f)
       !! cacheKeyOf (this f) absoluteFilePath
     = Some (CacheEntry.make (Stats.ctime (stats n)) (Stats.size (stats n)) info).
Proof.
  intros Hmode Hfile HisFile Hbinary Hmiss info.
  pose proof (calculateHashForFile_regular _ _ _ Hfile HisFile) as Hcalc.
  rewrite Hbinary in Hcalc.
  split; [exact Hcalc|]. split; [reflexivity|]. split; [reflexivity|].
  destruct f as [self w]. cbn [this world] in *.
  assert (Hstat : fsStat absoluteFilePath w
                  = (Return (stats n), logCall (Stat absoluteFilePath) w)).
  { unfold fsStat, logCall. cbv zeta. cbn [files]. now rewrite Hfile. }
  assert (Hcalc' : calculateHashForFile absoluteFilePath
                     (logCall (Stat absoluteFilePath) w)
                   = (Return {| sourceCode := None; digest := SHA1.hex (data n);
                                binaryData := Some (data n) |},
                      logCall (ReadFile absoluteFilePath None)
                              (logCall (Stat absoluteFilePath) w))).
  { rewrite (calculateHashForFile_regular _ _ n) by assumption.
    now rewrite Hbinary. }
  assert (Hrec : forall c : FileChangedCache,
    recompute absoluteFilePath (cacheKeyOf self absoluteFilePath)
              (Stats.ctime (stats n)) (Stats.size (stats n))
              {| this := c; world := logCall (Stat absoluteFilePath) w |}
    = (Return (WithBinaryData (data n) info),
       {| this := setChangeCache c
                    (<[cacheKeyOf self absoluteFilePath :=
                         CacheEntry.make (Stats.ctime (stats n))
                                         (Stats.size (stats n)) info]>
                       (changeCache c));
          world := logCall (ReadFile absoluteFilePath None)
                           (logCall (Stat absoluteFilePath) w) |})).
  { intros c. unfold recompute, bind, liftIO, updateChangeCache, ret.
    cbn [this world]. rewrite Hcalc'. reflexivity. }
  unfold cacheAfter, getHashForPath, bind, getThis, liftIO, updateChangeCache.
  cbn [this world]. rewrite Hmode. cbn [this world]. rewrite Hstat.
  cbn [this world]. rewrite HisFile. cbn [negb this world].
  destruct (changeCache self !! cacheKeyOf self absoluteFilePath) as [e|] eqn:He.
  - rewrite (Hmiss e eq_refl). cbn [this world].
    rewrite (Hrec (setChangeCache self (delete "cacheEntry" (changeCache self)))).
    cbn [fst snd this changeCache setChangeCache].
    split; [reflexivity | apply lookup_insert_eq].
  - rewrite (Hrec self). cbn [fst snd this changeCache setChangeCache].
    split; [reflexivity | apply lookup_insert_eq].
Qed.

(** C10. For an empty buffer [detectFileEncoding] returns [true], which is
    not [undefined]: on an empty regular file [calculateHashForFile] does
    not take the binary branch, it continues as for a text file, with the
    second [readFile] called with [true] in the place of the encoding. *)
Theorem C10_empty_file_detected_as_true
  (w : World) (absoluteFilePath : string) (n : Node) :
  files w !! absoluteFilePath = Some n ->
  Stats.isFile (stats n) = true ->
  data n = [] ->
  detectFileEncoding (data n) = Some DetectedTrue
  /\ calculateHashForFile absoluteFilePath w
     = (sourceCode <- fsReadFileWith absoluteFilePath DetectedTrue ;;
        ret {| sourceCode := Some sourceCode;
               digest := SHA1.hex (utf8Encode sourceCode);
               binaryData := None |})
         (logCall (ReadFile absoluteFilePath None) w)
  /\ calls (calculateHashForFile absoluteFilePath w).2
     = ReadFile absoluteFilePath (Some DetectedTrue)
         :: ReadFile absoluteFilePath None :: calls w.
Proof.
  intros Hfile HisFile Hempty.
  rewrite (calculateHashForFile_regular _ _ n) by assumption.
  rewrite Hempty. cbn [detectFileEncoding length Nat.ltb Nat.leb].
  split; [reflexivity|]. split; [reflexivity|].
  unfold bind, fsReadFileWith, logCall. cbv zeta. cbn [files clock calls fst snd].
  reflexivity.
Qed.

(** The encoding named by [detectFileEncoding] is the one the text is read
    with, and the digest is the SHA-1 of the UTF-8 bytes of that text. *)
Lemma calculateHashForFile_text (w : World) (absoluteFilePath : string) (r : HashResult) :
  (calculateHashForFile absoluteFilePath w).1 = Return r ->
  binaryData r = None ->
  exists n x,
    files w !! absoluteFilePath = Some n
    /\ detectFileEncoding (data n) = Some (DetectedName x)
    /\ sourceCode r = Some (bufferToString (data n) x)
    /\ digest r = SHA1.hex (utf8Encode (bufferToString (data n) x)).
Proof.
  unfold calculateHashForFile, bind, fsReadFile, fsReadFileWith, readBytes,
    logCall, ret.
  cbv zeta. cbn [files clock calls].
  destruct (files w !! absoluteFilePath) as [n|] eqn:Hfile; [|discriminate].
  destruct (Stats.isFile (stats n)) eqn:HisFile; [|discriminate].
  destruct (detectFileEncoding (data n)) as [[|x]|] eqn:Hdetect.
  - discriminate.
  - cbn [files]. rewrite Hfile, HisFile. cbn [fst].
    intros [= <-] _. exists n, x. repeat split; assumption || reflexivity.
  - cbn [fst]. intros [= <-]. discriminate.
Qed.




(** The encoding boundary of the specification: multi-byte UTF-8 text
    without control characters is text, bytes dense in control characters
    are binary. *)
Example utf8_multibyte_is_text :
  detectFileEncoding (utf8Encode [0x48; 0xE9; 0x4E2D; 0xD83D; 0xDE00])
  = Some (DetectedName utf8).
Proof. vm_compute. reflexivity. Qed.

Example dense_control_bytes_are_binary :
  detectFileEncoding (concat (repeat [0; 1; 200; 3; 7] 1000)) = None.
Proof. vm_compute. reflexivity. Qed.

Example utf16le_text_read_as_utf8 :
  utf16leEncode [0x4E2D] = [0x2D; 0x4E]
  /\ detectFileEncoding [0x2D; 0x4E] = Some (DetectedName utf8)
  /\ bufferToString [0x2D; 0x4E] utf8 = codeUnits "-N"
  /\ contentHash [0x2D; 0x4E] = Some (SHA1.hex (bytesOfString "-N")).
Proof. vm_compute. repeat split; reflexivity. Qed.

(** When the UTF-8 reading of a UTF-16LE file is rejected, here for its
    many NUL bytes, the file is read as UTF-16LE and hashes like its UTF-8
    twin. *)
Example utf16le_text_detected :
  let text := codeUnits "hello, wonderful world" in
  detectFileEncoding (utf16leEncode text) = Some (DetectedName utf16le)
  /\ contentHash (utf16leEncode text) = contentHash (utf8Encode text).
Proof. vm_compute. split; reflexivity. Qed.

(** *** ASCII text stored as UTF-8 and as UTF-16LE *)

Ltac zcases :=
  repeat match goal with
         | |- context [?a <? ?b] => destruct (Z.ltb_spec a b); try lia
         | |- context [?a <=? ?b] => destruct (Z.leb_spec a b); try lia
         | |- context [?a =? ?b] => destruct (Z.eqb_spec a b); try lia
         | |- context [?a >? ?b] => rewrite (Z.gtb_ltb a b)
         end.

Lemma utf8Encode_ascii_char c r :
  8 <= c < 128 -> utf8Encode (c :: r) = c :: utf8Encode r.
Proof.
  intros Hc. cbn [utf8Encode].
  replace (isHighSurrogate c) with false
    by (symmetry; apply andb_false_iff; left; apply Z.leb_gt; lia).
  replace (isLowSurrogate c) with false
    by (symmetry; apply andb_false_iff; left; apply Z.leb_gt; lia).
  unfold utf8OfCodePoint. zcases. reflexivity.
Qed.

Lemma utf8Encode_plainAscii text : plainAscii text -> utf8Encode text = text.
Proof.
  induction 1 as [|c text Hc _ IH]; [reflexivity|].
  rewrite utf8Encode_ascii_char by assumption. now rewrite IH.
Qed.

Lemma utf8Decode_plainAscii text : plainAscii text -> utf8Decode text = text.
Proof.
  induction 1 as [|c text Hc _ IH]; [reflexivity|].
  cbn [utf8Decode]. zcases. now rewrite IH.
Qed.

Lemma controlCharacters_plainAscii text : plainAscii text -> controlCharacters text = 0.
Proof.
  induction 1 as [|c text Hc _ IH]; [reflexivity|].
  cbn [controlCharacters]. rewrite IH. unfold isControl. zcases. reflexivity.
Qed.

Lemma containsControlCharacters_plainAscii text :
  plainAscii text -> containsControlCharacters text = false.
Proof.
  intros H. rewrite containsControlCharacters_closed_form.
  rewrite (controlCharacters_plainAscii _ H). reflexivity.
Qed.

Lemma plainAscii_take n text : plainAscii text -> plainAscii (take n text).
Proof. apply Forall_take. Qed.

Lemma utf16leEncode_cons c text :
  utf16leEncode (c :: text) = c mod 256 :: c / 256 :: utf16leEncode text.
Proof. reflexivity. Qed.

Lemma utf16leEncode_plainAscii_cons c text :
  8 <= c < 128 -> utf16leEncode (c :: text) = c :: 0 :: utf16leEncode text.
Proof.
  intros Hc. rewrite utf16leEncode_cons.
  rewrite Z.mod_small by lia. rewrite Z.div_small by lia. reflexivity.
Qed.

Lemma length_utf16leEncode text : length (utf16leEncode text) = (2 * length text)%nat.
Proof.
  induction text as [|c text IH]; [reflexivity|].
  rewrite utf16leEncode_cons. cbn [length]. lia.
Qed.

Lemma take_utf16leEncode n text :
  take (2 * n) (utf16leEncode text) = utf16leEncode (take n text).
Proof.
  revert text. induction n as [|n IH]; intros text; [reflexivity|].
  destruct text as [|c text]; [reflexivity|].
  replace (2 * S n)%nat with (S (S (2 * n))) by lia.
  rewrite utf16leEncode_cons. cbn [take]. rewrite IH. reflexivity.
Qed.

Lemma utf16leDecode_utf16leEncode text :
  plainAscii text -> utf16leDecode (utf16leEncode text) = text.
Proof.
  induction 1 as [|c text Hc _ IH]; [reflexivity|].
  rewrite utf16leEncode_plainAscii_cons by assumption.
  cbn [utf16leDecode]. rewrite IH. f_equal. lia.
Qed.

(** Read as UTF-8, the UTF-16LE bytes of ASCII text show one NUL per
    character. *)
Lemma controlCharacters_utf16le_as_utf8 text :
  plainAscii text ->
  controlCharacters (utf8Decode (utf16leEncode text)) = Z.of_nat (length text).
Proof.
  induction 1 as [|c text Hc _ IH]; [reflexivity|].
  rewrite utf16leEncode_plainAscii_cons by assumption.
  cbn [utf8Decode]. destruct (Z.ltb_spec c 0x80); [|lia].
  change (0 <? 0x80) with true. cbv beta match.
  cbn [controlCharacters]. rewrite IH. unfold isControl.
  destruct (Z.eqb_spec c 65536); [lia|]. destruct (Z.ltb_spec c 8); [lia|].
  cbn [orb length]. change ((0 =? 65536) || (0 <? 8)) with true.
  cbv beta match. lia.
Qed.

Lemma containsControlCharacters_utf16le_as_utf8 text :
  plainAscii text -> (16 < length text)%nat ->
  containsControlCharacters (utf8Decode (utf16leEncode text)) = true.
Proof.
  intros H Hlen. rewrite containsControlCharacters_closed_form.
  rewrite controlCharacters_utf16le_as_utf8 by assumption. cbv zeta.
  replace (Z.of_nat (length text) >? 16) with true; [reflexivity|].
  symmetry. apply Z.gtb_lt. lia.
Qed.

Lemma detectFileEncoding_utf16le text :
  plainAscii text -> (16 < length text)%nat ->
  detectFileEncoding (utf16leEncode text) = Some (DetectedName utf16le).
Proof.
  intros H Hlen. unfold detectFileEncoding.
  rewrite length_utf16leEncode.
  destruct (2 * length text <? 1)%nat eqn:E1; [apply Nat.ltb_lt in E1; lia|].
  assert (Hwindow : exists window,
    (if (2 * length text <? 4096)%nat then utf16leEncode text
     else take 4096 (utf16leEncode text)) = utf16leEncode window
    /\ plainAscii window /\ (16 < length window)%nat).
  { destruct (2 * length text <? 4096)%nat eqn:E2.
    - exists text. auto.
    - apply Nat.ltb_ge in E2. exists (take 2048 text).
      change 4096%nat with (2 * 2048)%nat. rewrite take_utf16leEncode.
      split; [reflexivity|]. split; [now apply plainAscii_take|].
      rewrite length_take. lia. }
  destruct Hwindow as (window & -> & Hw & Hwlen).
  unfold encodings. cbn [List.find bufferToString].
  rewrite containsControlCharacters_utf16le_as_utf8 by assumption.
  rewrite utf16leDecode_utf16leEncode by assumption.
  rewrite containsControlCharacters_plainAscii by assumption. reflexivity.
Qed.

Lemma detectFileEncoding_utf8 text :
  plainAscii text -> (0 < length text)%nat ->
  detectFileEncoding (utf8Encode text) = Some (DetectedName utf8).
Proof.
  intros H Hlen. rewrite utf8Encode_plainAscii by assumption.
  unfold detectFileEncoding.
  destruct (length text <? 1)%nat eqn:E1; [apply Nat.ltb_lt in E1; lia|].
  assert (Hwindow : plainAscii (if (length text <? 4096)%nat then text
                                else take 4096 text)).
  { destruct (length text <? 4096)%nat; [assumption | now apply plainAscii_take]. }
  unfold encodings. cbn [List.find bufferToString].
  rewrite utf8Decode_plainAscii by assumption.
  rewrite containsControlCharacters_plainAscii by assumption. reflexivity.
Qed.

Lemma contentHash_text buf x :
  detectFileEncoding buf = Some (DetectedName x) ->
  contentHash buf = Some (SHA1.hex (utf8Encode (bufferToString buf x))).
Proof.
  intros Hdetect. unfold contentHash.
  rewrite (calculateHashForFile_regular _ _
             {| stats := Stats.make 0 (Z.of_nat (length buf)) true; data := buf |})
    by (reflexivity || apply lookup_singleton_eq).
  cbn [data]. rewrite Hdetect.
  unfold bind, fsReadFileWith, readBytes, logCall, singleFile, ret.
  cbv zeta. cbn [files clock calls]. rewrite lookup_singleton_eq.
  reflexivity.
Qed.

(** X20. ASCII text of more than 16 characters, none of them a control
    character, receives the same hash stored as UTF-16LE and as UTF-8, the
    SHA-1 of its ASCII bytes: the NUL bytes make the UTF-8 reading of the
    UTF-16LE file fail the test. *)
Theorem plainAscii_same_hash text :
  plainAscii text -> (16 < length text)%nat ->
  contentHash (utf16leEncode text) = Some (SHA1.hex text)
  /\ contentHash (utf8Encode text) = Some (SHA1.hex text).
Proof.
  intros H Hlen. split.
  - rewrite (contentHash_text _ utf16le) by now apply detectFileEncoding_utf16le.
    cbn [bufferToString]. rewrite utf16leDecode_utf16leEncode by assumption.
    now rewrite utf8Encode_plainAscii.
  - rewrite (contentHash_text _ utf8) by (apply detectFileEncoding_utf8; [assumption | lia]).
    cbn [bufferToString]. rewrite (utf8Encode_plainAscii text) by assumption.
    rewrite utf8Decode_plainAscii by assumption.
    now rewrite utf8Encode_plainAscii.
Qed.

(** ** JSON: reading back what was written *)

Module JSONFacts.
Import JSON.


Lemma print_Array l : print (Array l) = "["%char :: printElements l ++ ["]"%char].
Proof. reflexivity. Qed.

Lemma print_Object ms : print (Object ms) = "{"%char :: printMembers ms ++ ["}"%char].
Proof. reflexivity. Qed.

(** *** Numbers *)

Lemma parseDigits_stop rest :
  endsNumber rest = true -> parseDigits rest = (Decimal.Nil, rest).
Proof.
  destruct rest as [|c r]; [reflexivity|]. cbn [endsNumber parseDigits].
  intros H. apply andb_true_iff in H as [H _].
  destruct (digitOf c); [|reflexivity].
  rewrite bool_decide_true in H by eauto. discriminate.
Qed.

Lemma parseDigits_printUint u rest :
  endsNumber rest = true -> parseDigits (printUint u ++ rest) = (u, rest).
Proof.
  intros H. induction u; cbn [printUint app];
    [now apply parseDigits_stop | ..];
    cbn [parseDigits]; rewrite IHu; reflexivity.
Qed.

Lemma to_uint_no_leading_zero p u : Pos.to_uint p <> Decimal.D0 u.
Proof.
  intros H.
  pose proof (DecimalPos.Unsigned.to_of (Pos.to_uint p)) as Hn.
  rewrite DecimalPos.Unsigned.of_to in Hn. cbn [N.to_uint] in Hn.
  rewrite H in Hn. unfold Decimal.unorm in Hn. cbn [Decimal.nzhead] in Hn.
  destruct (Decimal.nzhead u) eqn:E; try discriminate Hn.
  - injection Hn as ->. exact (DecimalPos.Unsigned.to_uint_nonzero p H).
  - exact (DecimalFacts.nzhead_nonzero _ _ E).
Qed.

Lemma splitSign_printUint u rest :
  u <> Decimal.Nil ->
  splitSign (printUint u ++ rest) = (false, printUint u ++ rest).
Proof. destruct u; [contradiction | reflexivity ..]. Qed.

Lemma isInteger_to_uint p : isInteger (Pos.to_uint p) = true.
Proof.
  pose proof (to_uint_no_leading_zero p) as Hz.
  pose proof (DecimalPos.Unsigned.to_uint_nonnil p) as Hnil.
  destruct (Pos.to_uint p); try reflexivity; [contradiction|].
  exfalso. eapply Hz. reflexivity.
Qed.

Lemma parseNumber_printNumber n rest :
  endsNumber rest = true ->
  parseNumber (printNumber n ++ rest) = Some (n, rest).
Proof.
  intros H.
  assert (Hc : continuesNumber rest = false).
  { destruct rest as [|c r]; [reflexivity|]. cbn [endsNumber] in H.
    apply andb_true_iff in H as [_ H]. now apply negb_true_iff in H. }
  pose proof (DecimalZ.of_to n) as Hn.
  unfold printNumber, parseNumber. unfold Z.to_int in *.
  destruct n as [|p|p].
  - rewrite splitSign_printUint by discriminate. cbv beta match.
    rewrite parseDigits_printUint by assumption. rewrite Hc. reflexivity.
  - rewrite splitSign_printUint by apply DecimalPos.Unsigned.to_uint_nonnil.
    cbv beta match. rewrite parseDigits_printUint by assumption.
    rewrite isInteger_to_uint, Hc, Hn. reflexivity.
  - change (splitSign (("-"%char :: printUint (Pos.to_uint p)) ++ rest))
      with (true, printUint (Pos.to_uint p) ++ rest).
    cbv beta match. rewrite parseDigits_printUint by assumption.
    rewrite isInteger_to_uint, Hc, Hn. reflexivity.
Qed.

(** *** Strings *)

Lemma parseChars_escapeChar c r :
  parseChars (escapeChar c ++ r) = prepend [c] (parseChars r).
Proof.
  destruct c as [[] [] [] [] [] [] [] []]; reflexivity.
Qed.

Lemma prepend_Some c cs rest :
  prepend [c] (Some (cs, rest)) = Some (c :: cs, rest).
Proof. reflexivity. Qed.

Lemma parseChars_escaped cs rest :
  parseChars (concat (map escapeChar cs) ++ quoteChar :: rest) = Some (cs, rest).
Proof.
  induction cs as [|c cs IH]; [reflexivity|].
  cbn [map concat]. rewrite <- app_assoc, parseChars_escapeChar, IH.
  apply prepend_Some.
Qed.

Lemma parseString_escaped s rest :
  parseString (concat (map escapeChar (chars s)) ++ quoteChar :: rest)
  = Some (s, rest).
Proof.
  unfold parseString. rewrite parseChars_escaped. unfold chars.
  now rewrite string_of_list_ascii_of_string.
Qed.

Lemma quote_app s rest :
  quote s ++ rest
  = quoteChar :: concat (map escapeChar (chars s)) ++ quoteChar :: rest.
Proof. unfold quote. cbn [app]. now rewrite <- app_assoc. Qed.

(** *** Values *)

Lemma printUint_head u :
  u <> Decimal.Nil -> exists c r, printUint u = c :: r /\ startsValue c = true.
Proof. destruct u; [contradiction | eexists _, _; split; reflexivity ..]. Qed.

Lemma printNumber_head n :
  exists c r, printNumber n = c :: r /\ startsValue c = true
              /\ (code c =? 123) = false /\ (code c =? 91) = false
              /\ (code c =? 34) = false /\ (code c =? 110) = false
              /\ (code c =? 116) = false /\ (code c =? 102) = false.
Proof.
  unfold printNumber, Z.to_int.
  assert (Hu : forall u, u <> Decimal.Nil ->
    exists c r, printUint u = c :: r /\ startsValue c = true
              /\ (code c =? 123) = false /\ (code c =? 91) = false
              /\ (code c =? 34) = false /\ (code c =? 110) = false
              /\ (code c =? 116) = false /\ (code c =? 102) = false).
  { intros u Hnil. destruct u; [contradiction | ..];
      eexists _, _; repeat split; reflexivity. }
  destruct n as [|p|p].
  - apply Hu. discriminate.
  - apply Hu, DecimalPos.Unsigned.to_uint_nonnil.
  - eexists _, _. repeat split; reflexivity.
Qed.

Lemma print_head v : exists c r, print v = c :: r /\ startsValue c = true.
Proof.
  destruct v as [|[]|n|s|l|ms];
    try (eexists _, _; split; reflexivity).
  destruct (printNumber_head n) as (c & r & H & Hs & _). eauto.
Qed.

Lemma startsValue_not_whitespace c : startsValue c = true -> isWhitespace c = false.
Proof.
  unfold startsValue, isWhitespace, between. cbv zeta. intros H.
  repeat (apply orb_true_iff in H as [H|H]);
    try apply andb_true_iff in H as [? ?];
    repeat (apply orb_false_iff; split); lia.
Qed.

Lemma startsValue_not_closing c :
  startsValue c = true -> (code c =? 93) = false /\ (code c =? 125) = false.
Proof.
  unfold startsValue, between. cbv zeta. intros H.
  repeat (apply orb_true_iff in H as [H|H]);
    try apply andb_true_iff in H as [? ?]; split; lia.
Qed.

Lemma skipWhitespace_value c r :
  startsValue c = true -> skipWhitespace (c :: r) = c :: r.
Proof.
  intros H. cbn [skipWhitespace]. now rewrite startsValue_not_whitespace.
Qed.

Lemma fuelFor_Array l : fuelFor (Array l) = S (fuelForElements l).
Proof. reflexivity. Qed.

Lemma fuelFor_Object ms : fuelFor (Object ms) = S (fuelForMembers ms).
Proof. reflexivity. Qed.

Lemma parseValue_unfold fuel s :
  parseValue (S fuel) s
  = match skipWhitespace s with
    | [] => None
    | c :: r =>
      let n := code c in
      if n =? 123 then
        match skipWhitespace r with
        | c' :: r' =>
          if code c' =? 125 then Some (Object [], r')
          else
            match parseMembers fuel r with
            | Some (ms, rest) => Some (Object ms, rest)
            | None => None
            end
        | [] => None
        end
      else if n =? 91 then
        match skipWhitespace r with
        | c' :: r' =>
          if code c' =? 93 then Some (Array [], r')
          else
            match parseElements fuel r with
            | Some (vs, rest) => Some (Array vs, rest)
            | None => None
            end
        | [] => None
        end
      else if n =? 34 then
        match parseString r with
        | Some (str, rest) => Some (Str str, rest)
        | None => None
        end
      else if n =? 110 then expect "null" Null (c :: r)
      else if n =? 116 then expect "true" (Bool true) (c :: r)
      else if n =? 102 then expect "false" (Bool false) (c :: r)
      else
        match parseNumber (c :: r) with
        | Some (z, rest) => Some (Number z, rest)
        | None => None
        end
    end.
Proof. reflexivity. Qed.

Lemma parseElements_unfold fuel s :
  parseElements (S fuel) s
  = match parseValue fuel s with
    | Some (v, r1) =>
      match skipWhitespace r1 with
      | c :: r2 =>
        if code c =? 44 then
          match parseElements fuel r2 with
          | Some (vs, rest) => Some (v :: vs, rest)
          | None => None
          end
        else if code c =? 93 then Some ([v], r2)
        else None
      | [] => None
      end
    | None => None
    end.
Proof. reflexivity. Qed.

Lemma parseMembers_unfold fuel s :
  parseMembers (S fuel) s
  = match skipWhitespace s with
    | c :: r =>
      if code c =? 34 then
        match parseString r with
        | Some (k, r1) =>
          match skipWhitespace r1 with
          | c1 :: r2 =>
            if code c1 =? 58 then
              match parseValue fuel r2 with
              | Some (v, r3) =>
                match skipWhitespace r3 with
                | c3 :: r4 =>
                  if code c3 =? 44 then
                    match parseMembers fuel r4 with
                    | Some (ms, rest) => Some ((k, v) :: ms, rest)
                    | None => None
                    end
                  else if code c3 =? 125 then Some ([(k, v)], r4)
                  else None
                | [] => None
                end
              | None => None
              end
            else None
          | [] => None
          end
        | None => None
        end
      else None
    | [] => None
    end.
Proof. reflexivity. Qed.

Lemma printElements_one x : printElements [x] = print x ++ [].
Proof. reflexivity. Qed.

Lemma printElements_more x y l :
  printElements (x :: y :: l) = print x ++ ","%char :: printElements (y :: l).
Proof. reflexivity. Qed.

Lemma printMembers_one k x :
  printMembers [(k, x)] = quote k ++ ":"%char :: print x ++ [].
Proof. reflexivity. Qed.

Lemma printMembers_more k x m ms :
  printMembers ((k, x) :: m :: ms)
  = quote k ++ ":"%char :: print x ++ ","%char :: printMembers (m :: ms).
Proof. reflexivity. Qed.

Lemma parseElements_printElements l :
  Forall readsBack l -> l <> [] ->
  forall fuel rest,
    (fuelForElements l <= fuel)%nat ->
    parseElements fuel (printElements l ++ "]"%char :: rest) = Some (l, rest).
Proof.
  induction 1 as [|x l Hx Hl IH]; [contradiction|]. intros _ fuel rest Hfuel.
  cbn [fuelForElements] in Hfuel.
  destruct fuel as [|fuel]; [lia|]. rewrite parseElements_unfold.
  destruct l as [|y l].
  - rewrite printElements_one, <- app_assoc. cbn [app].
    rewrite Hx by (reflexivity || lia). reflexivity.
  - rewrite printElements_more, <- app_assoc, <- app_comm_cons.
    rewrite Hx by (reflexivity || lia).
    change (skipWhitespace (","%char :: ?r)) with (","%char :: r).
    change (code ","%char =? 44) with true. cbv beta match.
    rewrite IH by (discriminate || lia). reflexivity.
Qed.

Lemma parseMembers_printMembers ms :
  Forall (fun m => readsBack m.2) ms -> ms <> [] ->
  forall fuel rest,
    (fuelForMembers ms <= fuel)%nat ->
    parseMembers fuel (printMembers ms ++ "}"%char :: rest) = Some (ms, rest).
Proof.
  induction 1 as [|[k x] ms Hx Hms IH]; [contradiction|]. intros _ fuel rest Hfuel.
  cbn [fuelForMembers] in Hfuel. cbn [snd] in Hx.
  destruct fuel as [|fuel]; [lia|]. rewrite parseMembers_unfold.
  destruct ms as [|m ms].
  - rewrite printMembers_one, <- app_assoc, quote_app.
    change (skipWhitespace (quoteChar :: ?r)) with (quoteChar :: r).
    change (code quoteChar =? 34) with true. cbv beta match.
    rewrite parseString_escaped.
    rewrite <- app_comm_cons.
    change (skipWhitespace (":"%char :: ?r)) with (":"%char :: r).
    change (code ":"%char =? 58) with true. cbv beta match.
    rewrite <- app_assoc. cbn [app].
    rewrite Hx by (reflexivity || lia). reflexivity.
  - rewrite printMembers_more, <- app_assoc, quote_app.
    change (skipWhitespace (quoteChar :: ?r)) with (quoteChar :: r).
    change (code quoteChar =? 34) with true. cbv beta match.
    rewrite parseString_escaped.
    rewrite <- app_comm_cons.
    change (skipWhitespace (":"%char :: ?r)) with (":"%char :: r).
    change (code ":"%char =? 58) with true. cbv beta match.
    rewrite <- app_assoc, <- app_comm_cons.
    rewrite Hx by (reflexivity || lia).
    change (skipWhitespace (","%char :: ?r)) with (","%char :: r).
    change (code ","%char =? 44) with true. cbv beta match.
    rewrite IH by (discriminate || lia). reflexivity.
Qed.

Theorem parseValue_print v : readsBack v.
Proof.
  induction v as [|b|n|s|l IH|ms IH] using value_induction;
    intros fuel rest Hfuel Hrest;
    (destruct fuel as [|fuel]; [cbn in Hfuel; lia|]).
  - reflexivity.
  - destruct b; reflexivity.
  - rewrite parseValue_unfold. cbn [print].
    destruct (printNumber_head n) as (c & r & Hp & Hs & H1 & H2 & H3 & H4 & H5 & H6).
    pose proof (parseNumber_printNumber n rest Hrest) as Hn.
    rewrite Hp in *. rewrite <- app_comm_cons in *.
    rewrite skipWhitespace_value by assumption. cbv zeta.
    rewrite H1, H2, H3, H4, H5, H6, Hn. reflexivity.
  - rewrite parseValue_unfold. cbn [print]. rewrite quote_app.
    change (skipWhitespace (quoteChar :: ?r)) with (quoteChar :: r).
    cbv zeta. change (code quoteChar) with 34. cbn [Z.eqb Pos.eqb].
    rewrite parseString_escaped. reflexivity.
  - rewrite parseValue_unfold, print_Array.
    rewrite fuelFor_Array in Hfuel.
    destruct l as [|x l]; [reflexivity|].
    change (skipWhitespace (("["%char :: ?r) ++ ?q)) with ("["%char :: r ++ q).
    cbv zeta. change (code "["%char) with 91. cbn [Z.eqb Pos.eqb].
    rewrite <- app_assoc. cbn [app].
    destruct (print_head x) as (c & r & Hp & Hs).
    assert (Hskip : exists r', skipWhitespace
               (printElements (x :: l) ++ "]"%char :: rest) = c :: r').
    { cbn [printElements]. rewrite Hp. rewrite <- !app_comm_cons.
      eexists. now apply skipWhitespace_value. }
    destruct Hskip as [r' ->].
    destruct (startsValue_not_closing c Hs) as [-> _].
    rewrite (parseElements_printElements (x :: l)) by (assumption || discriminate || lia).
    reflexivity.
  - rewrite parseValue_unfold, print_Object.
    rewrite fuelFor_Object in Hfuel.
    destruct ms as [|m ms]; [reflexivity|].
    change (skipWhitespace (("{"%char :: ?r) ++ ?q)) with ("{"%char :: r ++ q).
    cbv zeta. change (code "{"%char) with 123. cbn [Z.eqb Pos.eqb].
    rewrite <- app_assoc. cbn [app].
    assert (Hskip : exists r', skipWhitespace
               (printMembers (m :: ms) ++ "}"%char :: rest) = quoteChar :: r').
    { destruct m as [k x]. cbn [printMembers]. rewrite <- app_assoc, quote_app.
      eexists. reflexivity. }
    destruct Hskip as [r' ->].
    change (code quoteChar =? 125) with false. cbv beta match.
    rewrite (parseMembers_printMembers (m :: ms)) by (assumption || discriminate || lia).
    reflexivity.
Qed.

(** The text of a value is at least as long as the fuel it needs. *)
Lemma printUint_nonempty u : u <> Decimal.Nil -> (1 <= length (printUint u))%nat.
Proof. destruct u; [contradiction | cbn [printUint length]; lia ..]. Qed.

Lemma fuelFor_le_length v : (fuelFor v <= length (print v))%nat.
Proof.
  induction v as [|b|n|s|l IH|ms IH] using value_induction.
  - cbn. lia.
  - destruct b; cbn; lia.
  - destruct (printNumber_head n) as (c & r & Hp & _). cbn [print fuelFor].
    rewrite Hp. cbn [length]. lia.
  - cbn [print fuelFor]. unfold quote. cbn [length]. lia.
  - rewrite fuelFor_Array, print_Array. cbn [length]. rewrite length_app.
    cbn [length].
    enough (fuelForElements l <= length (printElements l) + 1)%nat by lia.
    induction IH as [|x l Hx Hl IHl]; [cbn; lia|].
    destruct l as [|y l].
    + rewrite printElements_one, length_app. cbn [fuelForElements length]. lia.
    + rewrite printElements_more, length_app.
      cbn [fuelForElements length] in *. lia.
  - rewrite fuelFor_Object, print_Object. cbn [length]. rewrite length_app.
    cbn [length].
    enough (fuelForMembers ms <= length (printMembers ms) + 1)%nat by lia.
    induction IH as [|[k x] ms Hx Hms IHms]; [cbn; lia|]. cbn [snd] in Hx.
    destruct ms as [|m ms].
    + rewrite printMembers_one, !length_app. cbn [fuelForMembers length].
      rewrite length_app. cbn [length]. lia.
    + rewrite printMembers_more, !length_app. cbn [length].
      rewrite length_app. cbn [fuelForMembers length] in *. lia.
Qed.

(** [JSON.parse(JSON.stringify(v))] is [v]. *)
Theorem parse_stringify v : parse (stringify v) = Some v.
Proof.
  unfold parse, stringify, chars. rewrite list_ascii_of_string_of_list_ascii.
  rewrite <- (app_nil_r (print v)) at 2.
  rewrite parseValue_print; [reflexivity | | reflexivity].
  pose proof (fuelFor_le_length v). lia.
Qed.

End JSONFacts.

(** ** The snapshot *)

Lemma infoOfJson_infoToJson i : infoOfJson (infoToJson i) = Some i.
Proof. destruct i. reflexivity. Qed.

Lemma entryOfJson_entryToJson e : entryOfJson (entryToJson e) = Some e.
Proof. destruct e as [c s [h a b c' d]]. reflexivity. Qed.

Lemma entriesOfJson_map (l : list (string * CacheEntry.t)) :
  entriesOfJson (map (fun kv => (kv.1, entryToJson kv.2)) l) = Some l.
Proof.
  induction l as [|[k e] l IH]; [reflexivity|].
  cbn [map entriesOfJson fst snd]. now rewrite entryOfJson_entryToJson, IH.
Qed.

Lemma changeCacheOfJson_changeCacheToJson (m : gmap string CacheEntry.t) :
  changeCacheOfJson (changeCacheToJson m) = Some m.
Proof.
  unfold changeCacheOfJson, changeCacheToJson. rewrite entriesOfJson_map.
  f_equal. rewrite <- (list_to_map_to_list m) at 2.
  symmetry. apply list_to_map_proper.
  - apply NoDup_fst_map_to_list.
  - symmetry. apply reverse_Permutation.
Qed.

Lemma asciiOfByte_code c : asciiOfByte (Z.of_N (N_of_ascii c)) = c.
Proof.
  unfold asciiOfByte. pose proof (N_ascii_bounded c).
  rewrite Z.mod_small by lia. rewrite N2Z.id. apply ascii_N_embedding.
Qed.

Lemma stringOfBytes_bytesOfString s : stringOfBytes (bytesOfString s) = s.
Proof.
  unfold stringOfBytes, bytesOfString, codeUnits. rewrite map_map.
  rewrite (map_ext _ (fun c => c)) by (intros; apply asciiOfByte_code).
  rewrite map_id. apply string_of_list_ascii_of_string.
Qed.

(** ** Persistence *)

(** [save] writes the compressed text of the mapping, when the path is
    free or names a regular file. *)
Lemma save_writes `{Zlib} (x : FileChangedCache) (w : World) (filePath : string) :
  (forall n, files w !! filePath = Some n -> Stats.isFile (stats n) = true) ->
  let buf := gzip (bytesOfString (JSON.stringify (changeCacheToJson (changeCache x)))) in
  save filePath {| this := x; world := w |}
  = (Return tt,
     {| this := x;
        world :=
          {| files :=
               <[filePath := {| stats := Stats.make (clock w) (Z.of_nat (length buf)) true;
                                data := buf |}]> (files w);
             clock := clock w;
             calls := WriteFile filePath buf :: calls w |} |}).
Proof.
  intros Hfree buf. unfold save, bind, getThis, liftIO, fsWriteFile, logCall.
  cbv zeta. cbn [this world files clock calls]. fold buf.
  destruct (files w !! filePath) as [n|] eqn:Hn; [|reflexivity].
  now rewrite (Hfree n eq_refl).
Qed.

(** [loadFromFile] on a file that holds the compressed text of a mapping. *)
Lemma loadFromFile_reads `{z : Zlib} `{!ZlibLossless z}
  (m : gmap string CacheEntry.t) (w : World) (file : string) (n : Node)
  (o : option bool) :
  files w !! file = Some n ->
  Stats.isFile (stats n) = true ->
  data n = gzip (bytesOfString (JSON.stringify (changeCacheToJson m))) ->
  loadFromFile file o w
  = (Return {| appRoot := VBool (default true o);
               failOnCacheMiss := false;
               changeCache := m |},
     logCall (ReadFile file None) w).
Proof.
  intros Hfile HisFile Hdata.
  unfold loadFromFile, bind, fsReadFile, readBytes, logCall, throw, ret.
  cbv zeta. cbn [files]. rewrite Hfile, HisFile, Hdata, gunzip_gzip.
  rewrite stringOfBytes_bytesOfString, JSONFacts.parse_stringify.
  rewrite changeCacheOfJson_changeCacheToJson. reflexivity.
Qed.


(** Whatever the snapshot, the instance [loadFromFile] returns has
    [failOnCacheMiss] false: its argument went to [appRoot]. *)
Lemma loadFromFile_failOnCacheMiss `{Zlib} (file : string) (o : option bool)
  (w w' : World) (y : FileChangedCache) :
  loadFromFile file o w = (Return y, w') ->
  failOnCacheMiss y = false /\ appRoot y = VBool (default true o).
Proof.
  unfold loadFromFile, bind, throw, ret.
  destruct (fsReadFile file w) as [[buf|e] w1]; [|discriminate].
  repeat case_match; try discriminate. intros [= <- _]. split; reflexivity.
Qed.

(** C3. [loadFromFile] declares [failOnCacheMiss=true] and calls
    [new FileChangedCache(failOnCacheMiss)], whose first parameter is
    [appRoot]. The instance loaded with the default arguments from a saved
    snapshot has [appRoot] true and [failOnCacheMiss] false; a lookup of
    [/app/b.js], whose key is not in the snapshot, does not fail with the
    cache-miss error: it goes to the filesystem. *)
Theorem C3_loaded_instance_is_not_strict :
  let saved := (@save storeOnly "/snapshot" staleFrame).2 in
  let loaded := @loadFromFile storeOnly "/snapshot" None (world saved) in
  exists y,
    loaded.1 = Return y
    /\ changeCache y = changeCache (this staleFrame)
    /\ appRoot y = VBool true
    /\ failOnCacheMiss y = false
    /\ changeCache y !! cacheKeyOf y "/app/b.js" = None
    /\ getHashForPath "/app/b.js" {| this := y; world := loaded.2 |}
       = (Throw (SystemError "ENOENT" "/app/b.js"),
          {| this := y; world := logCall (Stat "/app/b.js") loaded.2 |}).
Proof.
  eexists. split; [vm_compute; reflexivity|].
  repeat split; vm_compute; reflexivity.
Qed.

(** ** The theorems at concrete inputs *)

Lemma storeOnly_lossless : ZlibLossless storeOnly.
Proof. intros b. reflexivity. Defined.

Lemma C1_hit_witness :
  getHashForPath "/app/cacheEntry" staleFrame
  = (Return (Stored (Info.make "c22b5f9178342609428d6f51b2c5af4c0bde6a42"
                               false false false false)),
     {| this := this staleFrame;
        world := logCall (Stat "/app/cacheEntry") (world staleFrame) |}).
Proof.
  refine (proj1 (C1_hit_returns_stored_facts_without_reading
            staleFrame "/app/cacheEntry"
            (CacheEntry.make 5 2
               (Info.make "c22b5f9178342609428d6f51b2c5af4c0bde6a42"
                          false false false false))
            {| stats := Stats.make 5 2 true; data := bytesOfString "hi" |}
            _ _ _ _ _ _)).
  - reflexivity.
  - vm_compute. reflexivity.
  - vm_compute. reflexivity.
  - reflexivity.
  - simpl. lia.
  - reflexivity.
Defined.




Lemma C9_binary_witness :
  (getHashForPath "/app/blob" binaryFrame).1
  = Return (WithBinaryData (repeat 0 40)
              (Info.make (SHA1.hex (repeat 0 40)) false false false true)).
Proof.
  refine (proj1 (proj2 (proj2 (proj2
            (C9_binary_file_facts binaryFrame "/app/blob"
               {| stats := Stats.make 7 40 true; data := repeat 0 40 |}
               _ _ _ _ _))))).
  - reflexivity.
  - vm_compute. reflexivity.
  - reflexivity.
  - vm_compute. reflexivity.
  - intros e H. vm_compute in H. discriminate H.
Defined.

Lemma C10_empty_file_witness :
  detectFileEncoding [] = Some DetectedTrue
  /\ calls (calculateHashForFile "/empty" (singleFile "/empty" 0 [])).2
     = [ReadFile "/empty" (Some DetectedTrue); ReadFile "/empty" None].
Proof.
  pose proof (C10_empty_file_detected_as_true
                (singleFile "/empty" 0 []) "/empty"
                {| stats := Stats.make 0 0 true; data := [] |}) as H.
  destruct H as (H1 & _ & H3).
  - vm_compute. reflexivity.
  - reflexivity.
  - reflexivity.
  - split; [exact H1 | exact H3].
Defined.

(** * Further properties of the code *)

(** ** Lookup: errors, effects and recomputation *)

(** X1. A permissive lookup of a path that does not exist fails with the
    error of [stat], and a permissive lookup of a path that is not a
    regular file fails with [Can't stat <path>]; in both cases the cache
    is left as it was, an entry of the path included, and the only
    filesystem call is the [stat]. *)
Theorem getHashForPath_stat_failure (f : Frame) (absoluteFilePath : string) :
  failOnCacheMiss (this f) = false ->
  (files (world f) !! absoluteFilePath = None ->
   getHashForPath absoluteFilePath f
   = (Throw (SystemError "ENOENT" absoluteFilePath),
      {| this := this f; world := logCall (Stat absoluteFilePath) (world f) |}))
  /\ (forall n,
      files (world f) !! absoluteFilePath = Some n ->
      Stats.isFile (stats n) = false ->
      getHashForPath absoluteFilePath f
      = (Throw (Error ("Can't stat " +:+ absoluteFilePath)),
         {| this := this f; world := logCall (Stat absoluteFilePath) (world f) |})).
Proof.
  intros Hmode. destruct f as [self w]. cbn [this world] in *.
  unfold getHashForPath, bind, getThis, liftIO, fsStat, throw.
  cbv zeta. cbn [this world]. rewrite Hmode. cbn [this world files logCall].
  split.
  - intros Hfile. rewrite Hfile. reflexivity.
  - intros n Hfile HisFile. rewrite Hfile. cbn [this world]. rewrite HisFile.
    reflexivity.
Qed.

(** X2. Whatever its mode and its outcome, a lookup never changes the
    files or the clock of the world, and every filesystem call it makes
    is a [stat] or a [readFile] of the path it was asked about: it never
    writes and never touches another path. *)
Theorem getHashForPath_reads_only (f : Frame) (absoluteFilePath : string) :
  let after := (getHashForPath absoluteFilePath f).2 in
  files (world after) = files (world f)
  /\ clock (world after) = clock (world f)
  /\ exists added,
       calls (world after) = added ++ calls (world f)
       /\ Forall (readsOnly absoluteFilePath) added
       /\ (length added <= 3)%nat.
Proof.
  destruct f as [self [fs clk cs]].
  unfold getHashForPath, recompute, calculateHashForFile, bind, getThis, liftIO,
    updateChangeCache, throw, ret, fsStat, fsReadFile, fsReadFileWith, readBytes,
    logCall.
  cbv zeta. cbn [this world files clock calls].
  assert (Hs : readsOnly absoluteFilePath (Stat absoluteFilePath)) by (left; reflexivity).
  assert (Hr : forall o, readsOnly absoluteFilePath (ReadFile absoluteFilePath o))
    by (intros o; right; eauto).
  repeat (case_match; simplify_eq; cbn [this world files clock calls snd] in * );
    (split; [reflexivity|]); (split; [reflexivity|]);
    first
      [ exists []; split; [reflexivity|]; split; [apply List.Forall_nil | cbn; lia]
      | eexists [_]; split; [reflexivity|]; split; [|cbn; lia]
      | eexists [_; _]; split; [reflexivity|]; split; [|cbn; lia]
      | eexists [_; _; _]; split; [reflexivity|]; split; [|cbn; lia] ];
    repeat (apply List.Forall_cons; [first [exact Hs | apply Hr]|]);
    apply List.Forall_nil.
Qed.

(** X3. A permissive lookup that recomputes a regular file (no entry, or
    an entry whose timestamp is older than the current one or whose size
    differs) for which [detectFileEncoding] names an encoding reads the
    file twice, once raw and once in that encoding, and returns the decoded
    text with facts computed from it: the SHA-1 of its UTF-8 bytes, the two
    text classifiers applied to it, and [isFileBinary] false. The entry it
    stores carries the timestamp and size just read by [stat]. *)
Theorem getHashForPath_text_file_facts
  (f : Frame) (absoluteFilePath : string) (n : Node) (x : Encoding) :
  failOnCacheMiss (this f) = false ->
  files (world f) !! absoluteFilePath = Some n ->
  Stats.isFile (stats n) = true ->
  detectFileEncoding (data n) = Some (DetectedName x) ->
  (forall e,
     changeCache (this f) !! cacheKeyOf (this f) absoluteFilePath = Some e ->
     CacheEntry.ctime e < Stats.ctime (stats n)
     \/ CacheEntry.size e <> Stats.size (stats n)) ->
  let text := bufferToString (data n) x in
  let info :=
    Info.make (SHA1.hex (utf8Encode text)) (contentsAreMinified text)
              (isInNodeModules absoluteFilePath) (hasSourceMap text) false in
  let result := getHashForPath absoluteFilePath f in
  result.1 = Return (WithSourceCode text info)
  /\ cacheAfter result !! cacheKeyOf (this f) absoluteFilePath
     = Some (CacheEntry.make (Stats.ctime (stats n)) (Stats.size (stats n)) info)
  /\ calls (world result.2)
     = ReadFile absoluteFilePath (Some (DetectedName x))
         :: ReadFile absoluteFilePath None
         :: Stat absoluteFilePath :: calls (world f).
Proof.
  intros Hmode Hfile HisFile Hdetect Hmiss text info result.
  destruct f as [self [fs clk cs]]. cbn [this world files clock calls] in *.
  set (w0 := {| files := fs; clock := clk; calls := cs |}) in *.
  assert (Hstat : fsStat absoluteFilePath w0
                  = (Return (stats n), logCall (Stat absoluteFilePath) w0)).
  { unfold fsStat, logCall, w0. cbv zeta. cbn [files]. now rewrite Hfile. }
  assert (Hcalc : calculateHashForFile absoluteFilePath
                    (logCall (Stat absoluteFilePath) w0)
                  = (Return {| sourceCode := Some text;
                               digest := SHA1.hex (utf8Encode text);
                               binaryData := None |},
                     logCall (ReadFile absoluteFilePath (Some (DetectedName x)))
                       (logCall (ReadFile absoluteFilePath None)
                          (logCall (Stat absoluteFilePath) w0)))).
  { rewrite (calculateHashForFile_regular _ _ n) by assumption.
    rewrite Hdetect. unfold bind, fsReadFileWith, readBytes, logCall, ret, w0.
    cbv zeta. cbn [files clock calls]. rewrite Hfile, HisFile. reflexivity. }
  assert (Hrec : forall c : FileChangedCache,
    recompute absoluteFilePath (cacheKeyOf self absoluteFilePath)
              (Stats.ctime (stats n)) (Stats.size (stats n))
              {| this := c; world := logCall (Stat absoluteFilePath) w0 |}
    = (Return (WithSourceCode text info),
       {| this := setChangeCache c
                    (<[cacheKeyOf self absoluteFilePath :=
                         CacheEntry.make (Stats.ctime (stats n))
                                         (Stats.size (stats n)) info]>
                       (changeCache c));
          world := logCall (ReadFile absoluteFilePath (Some (DetectedName x)))
                     (logCall (ReadFile absoluteFilePath None)
                        (logCall (Stat absoluteFilePath) w0)) |})).
  { intros c. unfold recompute, bind, liftIO, updateChangeCache, ret.
    cbn [this world]. rewrite Hcalc. reflexivity. }
  subst result.
  unfold cacheAfter, getHashForPath, bind, getThis, liftIO, updateChangeCache.
  cbn [this world]. rewrite Hmode. cbn [this world]. rewrite Hstat.
  cbn [this world]. rewrite HisFile. cbn [negb this world].
  destruct (changeCache self !! cacheKeyOf self absoluteFilePath) as [e|] eqn:He.
  - assert (Hstale : (CacheEntry.ctime e >=? Stats.ctime (stats n))
                     && (CacheEntry.size e =? Stats.size (stats n)) = false).
    { apply andb_false_iff. destruct (Hmiss e eq_refl) as [H|H].
      - left. rewrite Z.geb_leb. apply Z.leb_gt. exact H.
      - right. now apply Z.eqb_neq. }
    rewrite Hstale. cbn [this world].
    rewrite (Hrec (setChangeCache self (delete "cacheEntry" (changeCache self)))).
    cbn [fst snd this world changeCache setChangeCache calls logCall].
    split; [reflexivity|]. split; [apply lookup_insert_eq | reflexivity].
  - rewrite (Hrec self).
    cbn [fst snd this world changeCache setChangeCache calls logCall].
    split; [reflexivity|]. split; [apply lookup_insert_eq | reflexivity].
Qed.

(** X4. What [calculateHashForFile] returns holds either the decoded text
    or the raw bytes, never both and never neither. *)
Theorem calculateHashForFile_text_or_binary
  (w : World) (absoluteFilePath : string) (r : HashResult) :
  (calculateHashForFile absoluteFilePath w).1 = Return r ->
  (is_Some (sourceCode r) /\ binaryData r = None)
  \/ (sourceCode r = None /\ is_Some (binaryData r)).
Proof.
  unfold calculateHashForFile, bind, fsReadFile, fsReadFileWith, readBytes,
    logCall, ret.
  cbv zeta. cbn [files clock calls].
  repeat (case_match; simplify_eq; cbn [fst] in * ); intros [= <-];
    cbn [sourceCode binaryData]; eauto.
Qed.

(** X5. The facts a lookup returns together with content describe that
    content: with raw bytes, the hash is the SHA-1 of those bytes,
    [isFileBinary] is true and the two text classifiers are false; with
    text, the hash is the SHA-1 of the UTF-8 bytes of that text,
    [isMinified] and [hasSourceMap] are the classifiers applied to it and
    [isFileBinary] is false. [isInNodeModules] is computed from the path
    that was asked for. *)
Theorem getHashForPath_facts_describe_content
  (f : Frame) (absoluteFilePath : string) (r : Facts) :
  (getHashForPath absoluteFilePath f).1 = Return r ->
  match r with
  | Stored _ => True
  | WithSourceCode text i =>
    i = Info.make (SHA1.hex (utf8Encode text)) (contentsAreMinified text)
                  (isInNodeModules absoluteFilePath) (hasSourceMap text) false
  | WithBinaryData bytes i =>
    i = Info.make (SHA1.hex bytes) false
                  (isInNodeModules absoluteFilePath) false true
  end.
Proof.
  destruct f as [self [fs clk cs]].
  unfold getHashForPath, recompute, calculateHashForFile, bind, getThis, liftIO,
    updateChangeCache, throw, ret, fsStat, fsReadFile, fsReadFileWith, readBytes,
    logCall.
  cbv zeta. cbn [this world files clock calls].
  repeat (case_match; simplify_eq;
          cbn [this world files clock calls fst sourceCode binaryData digest] in * );
    intros [= <-]; simplify_eq; try exact I; reflexivity.
Qed.

(** ** The classifiers *)

Lemma newlineLoop_newlines source : newlineLoop source 0 = newlines source.
Proof.
  induction source as [|c source IH]; [reflexivity|].
  cbn [newlineLoop newlines]. destruct (c =? 10).
  - rewrite newlineLoop_shift, IH. lia.
  - rewrite IH. lia.
Qed.

Lemma newlines_nonneg source : 0 <= newlines source.
Proof.
  induction source as [|c source IH]; cbn [newlines]; [lia|].
  destruct (c =? 10); lia.
Qed.

(** X6. A text of at most 80 characters is never classified as minified,
    whatever its lines. *)
Theorem contentsAreMinified_short_text (source : JSString) :
  (length source <= 80)%nat -> contentsAreMinified source = false.
Proof.
  intros Hlen. unfold contentsAreMinified, quotLt. cbv zeta.
  rewrite newlineLoop_newlines. pose proof (newlines_nonneg source) as Hn.
  destruct (Z.gtb_spec (Z.of_nat (length source)) 1024); [lia|].
  destruct (Z.eqb_spec (newlines source) 0).
  - destruct (Z.gtb_spec (Z.of_nat (length source)) 80); [lia | reflexivity].
  - apply Z.ltb_ge. lia.
Qed.

(** X7. A text with 13 or more newline characters, wherever they are, is
    never classified as minified: the length that is divided by the number
    of newlines is capped at 1024, and 1024 / 13 is below 80. *)
Theorem contentsAreMinified_many_newlines (source : JSString) :
  13 <= newlines source -> contentsAreMinified source = false.
Proof.
  intros Hn. unfold contentsAreMinified, quotLt. cbv zeta.
  rewrite newlineLoop_newlines.
  destruct (Z.eqb_spec (newlines source) 0); [lia|].
  apply Z.ltb_ge.
  destruct (Z.gtb_spec (Z.of_nat (length source)) 1024); lia.
Qed.

(** X8. A text without newline is classified as minified exactly when it
    has more than 80 characters; a text with newlines, when the first 1024
    characters at most, divided by the number of newlines of the whole
    text, give more than 80. *)
Theorem contentsAreMinified_iff (source : JSString) :
  contentsAreMinified source = true
  <-> (newlines source = 0 /\ (80 < length source)%nat)
      \/ (0 < newlines source
          /\ 80 * newlines source < Z.min (Z.of_nat (length source)) 1024).
Proof.
  unfold contentsAreMinified, quotLt. cbv zeta.
  rewrite newlineLoop_newlines. pose proof (newlines_nonneg source) as Hn.
  destruct (Z.gtb_spec (Z.of_nat (length source)) 1024);
    destruct (Z.eqb_spec (newlines source) 0);
    rewrite ?Z.gtb_lt, ?Z.ltb_lt; lia.
Qed.

(** X9. [containsControlCharacters] answers true exactly when the string
    has more than 16 control characters, or has some and they are fewer
    than 2% of its characters. *)
Theorem containsControlCharacters_iff (str : JSString) :
  containsControlCharacters str = true
  <-> 16 < controlCharacters str
      \/ (0 < controlCharacters str
          /\ 50 * controlCharacters str < Z.of_nat (length str)).
Proof.
  rewrite containsControlCharacters_closed_form. cbv zeta. unfold quotLt.
  pose proof (controlCharacters_nonneg str) as Hn.
  destruct (Z.gtb_spec (controlCharacters str) 16);
    destruct (Z.eqb_spec (controlCharacters str) 0);
    cbn [orb andb negb]; rewrite ?Z.ltb_lt; split; intros Hgoal;
    try discriminate; try reflexivity; try lia.
Qed.

(** X10. [detectFileEncoding] looks at the first 4096 bytes only, and it
    returns [true] for the empty buffer and for no other. *)
Theorem detectFileEncoding_window (buffer : Buffer) :
  detectFileEncoding buffer = detectFileEncoding (take 4096 buffer)
  /\ (detectFileEncoding buffer = Some DetectedTrue <-> buffer = []).
Proof.
  split.
  - unfold detectFileEncoding. rewrite length_take.
    destruct buffer as [|b buffer]; [reflexivity|].
    destruct (Nat.ltb_spec (length (b :: buffer)) 4096) as [Hlt|Hge].
    + rewrite take_ge by lia. rewrite Nat.min_r by lia.
      destruct (Nat.ltb_spec (length (b :: buffer)) 4096); [reflexivity | lia].
    + rewrite Nat.min_l by lia. cbn [length] in *.
      destruct (Nat.ltb_spec (S (length buffer)) 1); [lia|].
      change (4096 <? 1)%nat with false. change (4096 <? 4096)%nat with false.
      cbv beta match. rewrite take_take. rewrite Nat.min_id. reflexivity.
  - unfold detectFileEncoding. destruct buffer as [|b buffer].
    + split; reflexivity.
    + cbn [length]. change (S (length buffer) <? 1)%nat with false.
      cbv beta match. split; [|discriminate].
      destruct (List.find _ encodings); discriminate.
Qed.

(** *** [hasSourceMap] *)

Lemma isPrefixOf_nil pat : pat <> [] -> isPrefixOf pat [] = false.
Proof. destruct pat; [contradiction | reflexivity]. Qed.

(** The scan ends at or after its start position when the pattern occurs,
    and with the value it was given when it does not. *)
Lemma lastIndexFrom_occurs pat s : pat <> [] -> forall i last,
  last < i ->
  (occursIn pat s = true -> i <= lastIndexFrom pat s i last)
  /\ (occursIn pat s = false -> lastIndexFrom pat s i last = last).
Proof.
  intros Hpat. induction s as [|c s IH]; intros i last Hlast.
  - cbn [lastIndexFrom occursIn]. rewrite (isPrefixOf_nil _ Hpat).
    split; [discriminate | reflexivity].
  - cbn [lastIndexFrom occursIn].
    destruct (isPrefixOf pat (c :: s)) eqn:Hhere; cbn [orb].
    + destruct (IH (i + 1) i ltac:(lia)) as [Hyes Hno].
      split; [|discriminate]. intros _.
      destruct (occursIn pat s); [specialize (Hyes eq_refl) | rewrite Hno by reflexivity];
        lia.
    + destruct (IH (i + 1) last ltac:(lia)) as [Hyes Hno].
      split; [intros H; specialize (Hyes H); lia | exact Hno].
Qed.

(** The scan of [s ++ u] is a scan of [u] that starts at the length of
    [s], with a value found before that position. *)
Lemma lastIndexFrom_app pat s u : forall i last,
  last < i ->
  exists found,
    found < i + Z.of_nat (length s)
    /\ lastIndexFrom pat (s ++ u) i last
       = lastIndexFrom pat u (i + Z.of_nat (length s)) found.
Proof.
  induction s as [|c s IH]; intros i last Hlast.
  - exists last. cbn [length app]. rewrite Z.add_0_r. split; [lia | reflexivity].
  - cbn [app lastIndexFrom].
    destruct (IH (i + 1) (if isPrefixOf pat (c :: s ++ u) then i else last))
      as (found & Hfound & Heq).
    { destruct (isPrefixOf pat (c :: s ++ u)); lia. }
    exists found. rewrite Heq. cbn [length].
    replace (i + Z.of_nat (S (length s))) with (i + 1 + Z.of_nat (length s)) by lia.
    split; [lia | reflexivity].
Qed.

Lemma occursIn_newline_free t :
  Forall (fun c => c <> 10) t -> occursIn [10] t = false.
Proof.
  induction 1 as [|c t Hc _ IH]; [reflexivity|].
  cbn [occursIn isPrefixOf]. rewrite IH.
  destruct (Z.eqb_spec 10 c); [congruence | reflexivity].
Qed.

(** X11. [hasSourceMap] looks at the last line only: for a text whose last
    line [t] follows a newline, and for a text [t] of a single line, the
    answer is whether the marker occurs in [t]. *)
Theorem hasSourceMap_last_line_only (s t : JSString) :
  Forall (fun c => c <> 10) t ->
  hasSourceMap (s ++ 10 :: t) = occursIn sourceMapMarker t
  /\ hasSourceMap t = occursIn sourceMapMarker t.
Proof.
  intros Ht.
  assert (Hmarker : sourceMapMarker <> []) by discriminate.
  assert (Hnl : [10] <> ([] : JSString)) by discriminate.
  pose proof (occursIn_newline_free t Ht) as Hfree.
  unfold hasSourceMap, lastIndexOf.
  change (codeUnits "//# sourceMap") with sourceMapMarker.
  change (codeUnits (String (ascii_of_nat 10) "")) with [10].
  split.
  - destruct (lastIndexFrom_app sourceMapMarker s (10 :: t) 0 (-1) ltac:(lia))
      as (found & Hfound & ->).
    destruct (lastIndexFrom_app [10] s (10 :: t) 0 (-1) ltac:(lia))
      as (found' & Hfound' & ->).
    cbn [lastIndexFrom].
    change (isPrefixOf sourceMapMarker (10 :: t)) with false.
    change (isPrefixOf [10] (10 :: t)) with true. cbv beta match.
    set (j := 0 + Z.of_nat (length s)) in *.
    destruct (lastIndexFrom_occurs [10] t Hnl (j + 1) j ltac:(lia)) as [_ ->];
      [|exact Hfree].
    destruct (lastIndexFrom_occurs sourceMapMarker t Hmarker (j + 1) found ltac:(lia))
      as [Hyes Hno].
    destruct (occursIn sourceMapMarker t).
    + apply Z.gtb_lt. specialize (Hyes eq_refl). lia.
    + rewrite Hno by reflexivity. rewrite Z.gtb_ltb. apply Z.ltb_ge. lia.
  - destruct (lastIndexFrom_occurs [10] t Hnl 0 (-1) ltac:(lia)) as [_ ->];
      [|exact Hfree].
    destruct (lastIndexFrom_occurs sourceMapMarker t Hmarker 0 (-1) ltac:(lia))
      as [Hyes Hno].
    destruct (occursIn sourceMapMarker t).
    + apply Z.gtb_lt. specialize (Hyes eq_refl). lia.
    + rewrite Hno by reflexivity. reflexivity.
Qed.

(** *** [isInNodeModules] *)

Lemma matchesSomewhere_here pat s :
  matchesHere pat s = true -> matchesSomewhere pat s = true.
Proof. intros H. destruct s; cbn [matchesSomewhere]; now rewrite H. Qed.

Lemma matchesSomewhere_append pat pre s :
  matchesSomewhere pat s = true -> matchesSomewhere pat (pre +:+ s) = true.
Proof.
  intros H. induction pre as [|c pre IH]; [exact H|].
  change (matchesSomewhere pat (String c pre +:+ s))
    with (matchesHere pat (String c (pre +:+ s))
          || matchesSomewhere pat (pre +:+ s)).
  rewrite IH. apply orb_true_r.
Qed.

Lemma matchesHere_ignoring_case pat name rest s :
  map upperAscii pat = map upperAscii (list_ascii_of_string name) ->
  matchesHere (map sameCharIgnoreCase pat ++ rest) (name +:+ s)
  = matchesHere rest s.
Proof.
  revert name. induction pat as [|p pat IH]; intros name Hsame.
  - destruct name; [reflexivity | discriminate].
  - destruct name as [|c name]; [discriminate|].
    cbn [map list_ascii_of_string] in Hsame. injection Hsame as Hc Hrest.
    change (String c name +:+ s) with (String c (name +:+ s)).
    cbn [map app matchesHere]. unfold sameCharIgnoreCase at 1.
    rewrite bool_decide_true by exact Hc. cbn [andb]. now apply IH.
Qed.

(** X12. A path is in a dependency directory as soon as it contains,
    between two separators (slash or backslash), a segment spelled
    [node_modules] in any mix of upper and lower case; or, after a
    separator, the characters [atom.asar], whatever follows them. *)
Theorem isInNodeModules_segment (pre post name : string) (a b : ascii) :
  isSeparator a = true ->
  (sameLettersIgnoreCase "node_modules" name /\ isSeparator b = true
     -> isInNodeModules (pre +:+ String a (name +:+ String b post)) = true)
  /\ isInNodeModules (pre +:+ String a ("atom.asar" +:+ post)) = true.
Proof.
  intros Ha. unfold isInNodeModules. split.
  - intros [Hname Hb]. apply orb_true_iff. left.
    apply matchesSomewhere_append, matchesSomewhere_here.
    unfold reNodeModules. cbn [matchesHere]. rewrite Ha. cbn [andb].
    rewrite (matchesHere_ignoring_case _ name) by exact Hname.
    cbn [matchesHere]. rewrite Hb. reflexivity.
  - apply orb_true_iff. right.
    apply matchesSomewhere_append, matchesSomewhere_here.
    unfold reAtomAsar. cbn [matchesHere]. rewrite Ha. reflexivity.
Qed.

Lemma matchesSomewhere_noSeparator pat s :
  noSeparator s -> matchesSomewhere (isSeparator :: pat) s = false.
Proof.
  induction s as [|c s IH]; [reflexivity|]. intros [Hc Hs].
  cbn [matchesSomewhere matchesHere]. rewrite Hc. cbn [andb orb]. now apply IH.
Qed.

(** X13. A path without slash and without backslash is never in a
    dependency directory. *)
Theorem isInNodeModules_needs_separator (filePath : string) :
  noSeparator filePath -> isInNodeModules filePath = false.
Proof.
  intros H. unfold isInNodeModules, reNodeModules, reAtomAsar.
  now rewrite !matchesSomewhere_noSeparator.
Qed.

(** ** The cache key *)

Lemma removeFirst_unfold pattern s :
  removeFirst pattern s
  = if String.prefix pattern s then dropString (String.length pattern) s
    else match s with
         | EmptyString => EmptyString
         | String c s' => String c (removeFirst pattern s')
         end.
Proof. destruct s; reflexivity. Qed.

Lemma prefix_append root rel : String.prefix root (root +:+ rel) = true.
Proof.
  induction root as [|c root IH]; [destruct rel; reflexivity|].
  simpl. destruct (ascii_dec c c); [exact IH | congruence].
Qed.

Lemma dropString_append root rel :
  dropString (String.length root) (root +:+ rel) = rel.
Proof. induction root as [|c root IH]; [reflexivity | exact IH]. Qed.

Lemma prefix_split root s :
  String.prefix root s = true ->
  s = root +:+ dropString (String.length root) s.
Proof.
  revert s. induction root as [|c root IH]; intros s H; [reflexivity|].
  destruct s as [|d s]; [discriminate|]. simpl in H.
  destruct (ascii_dec c d) as [->|]; [|discriminate].
  change (String d s = String d (root +:+ dropString (String.length root) s)).
  f_equal. now apply IH.
Qed.

Lemma removeFirst_absent root s :
  root <> "" ->
  (forall pre post, s <> pre +:+ root +:+ post) ->
  removeFirst root s = s.
Proof.
  intros Hroot. induction s as [|c s IH]; intros Habsent.
  - rewrite removeFirst_unfold. destruct root; [contradiction | reflexivity].
  - rewrite removeFirst_unfold.
    destruct (String.prefix root (String c s)) eqn:Hprefix.
    + exfalso. apply (Habsent "" (dropString (String.length root) (String c s))).
      now apply prefix_split.
    + f_equal. apply IH. intros pre post ->.
      apply (Habsent (String c pre) post). reflexivity.
Qed.

(** X14. With a non-empty string as [appRoot], the key of a path that
    starts with the root is the rest of the path, and the key of a path in
    which the root does not occur is the path itself. *)
Theorem cacheKeyOf_strips_root (self : FileChangedCache) (root : string) :
  appRoot self = VString root ->
  root <> "" ->
  (forall rel, cacheKeyOf self (root +:+ rel) = rel)
  /\ (forall path,
        (forall pre post, path <> pre +:+ root +:+ post) ->
        cacheKeyOf self path = path).
Proof.
  intros Happ Hroot. unfold cacheKeyOf. rewrite Happ. cbn [truthy toString].
  rewrite bool_decide_false by exact Hroot. cbn [negb]. split.
  - intros rel. rewrite removeFirst_unfold, prefix_append. apply dropString_append.
  - intros path Habsent. now apply removeFirst_absent.
Qed.

(** ** Saving and loading *)


(** X16. Whatever the file holds, [loadFromFile] reads it once and does
    nothing else to the world. *)
Theorem loadFromFile_reads_once `{Zlib} (file : string) (o : option bool) (w : World) :
  (loadFromFile file o w).2 = logCall (ReadFile file None) w.
Proof.
  unfold loadFromFile, bind, fsReadFile, throw, ret. cbv zeta.
  repeat case_match; simplify_eq; reflexivity.
Qed.

(** The outcome of a lookup depends on the receiver through its mode, its
    mapping and the key it gives the path. *)
Lemma getHashForPath_same_outcome (x y : FileChangedCache) (w : World)
  (absoluteFilePath : string) :
  failOnCacheMiss y = failOnCacheMiss x ->
  changeCache y = changeCache x ->
  cacheKeyOf y absoluteFilePath = cacheKeyOf x absoluteFilePath ->
  (getHashForPath absoluteFilePath {| this := y; world := w |}).1
  = (getHashForPath absoluteFilePath {| this := x; world := w |}).1.
Proof.
  intros Hmode Hcache Hkey.
  unfold getHashForPath, recompute, bind, getThis, liftIO, updateChangeCache,
    throw, ret.
  cbn [this world]. rewrite Hmode, Hcache, Hkey.
  repeat (case_match; simplify_eq; cbn [this world fst] in * ); reflexivity.
Qed.


(** ** The further properties at concrete inputs *)

Lemma getHashForPath_stat_failure_witness :
  getHashForPath "/app/gone.js" freshFrame
  = (Throw (SystemError "ENOENT" "/app/gone.js"),
     {| this := this freshFrame;
        world := logCall (Stat "/app/gone.js") (world freshFrame) |})
  /\ getHashForPath "/app/lib" freshFrame
     = (Throw (Error "Can't stat /app/lib"),
        {| this := this freshFrame;
           world := logCall (Stat "/app/lib") (world freshFrame) |}).
Proof.
  split.
  - refine (proj1 (getHashForPath_stat_failure freshFrame "/app/gone.js" _) _).
    + reflexivity.
    + vm_compute. reflexivity.
  - refine (proj2 (getHashForPath_stat_failure freshFrame "/app/lib" _)
                  {| stats := Stats.make 1 4096 false; data := [] |} _ _).
    + reflexivity.
    + vm_compute. reflexivity.
    + reflexivity.
Defined.

Lemma getHashForPath_text_file_facts_witness :
  (getHashForPath "/app/a.js" freshFrame).1
  = Return (WithSourceCode (codeUnits "abc") abcInfo)
  /\ cacheAfter (getHashForPath "/app/a.js" freshFrame) !! "a.js"
     = Some (CacheEntry.make 2 3 abcInfo)
  /\ calls (world (getHashForPath "/app/a.js" freshFrame).2)
     = [ReadFile "/app/a.js" (Some (DetectedName utf8));
        ReadFile "/app/a.js" None; Stat "/app/a.js"].
Proof.
  refine (getHashForPath_text_file_facts freshFrame "/app/a.js"
            {| stats := Stats.make 2 3 true; data := bytesOfString "abc" |}
            utf8 _ _ _ _ _).
  - reflexivity.
  - vm_compute. reflexivity.
  - reflexivity.
  - vm_compute. reflexivity.
  - intros e H. vm_compute in H. discriminate H.
Defined.

Lemma calculateHashForFile_text_or_binary_witness :
  let r := {| sourceCode := None; digest := SHA1.hex (repeat 0 40);
              binaryData := Some (repeat 0 40) |} in
  (is_Some (sourceCode r) /\ binaryData r = None)
  \/ (sourceCode r = None /\ is_Some (binaryData r)).
Proof.
  intros r.
  refine (calculateHashForFile_text_or_binary
            (singleFile "/app/blob" 7 (repeat 0 40)) "/app/blob" r _).
  vm_compute. reflexivity.
Defined.

Lemma getHashForPath_facts_describe_content_witness :
  Info.make (SHA1.hex (repeat 0 40)) false false false true
  = Info.make (SHA1.hex (repeat 0 40)) false (isInNodeModules "/app/blob") false true.
Proof.
  refine (getHashForPath_facts_describe_content binaryFrame "/app/blob"
            (WithBinaryData (repeat 0 40)
               (Info.make (SHA1.hex (repeat 0 40)) false false false true)) _).
  vm_compute. reflexivity.
Defined.

Lemma getHashForPath_again_witness :
  let first := getHashForPath "/app/a.js" freshFrame in
  getHashForPath "/app/a.js" first.2
  = (Return (Stored abcInfo),
     {| this := this first.2;
        world := logCall (Stat "/app/a.js") (world first.2) |}).
Proof.
  intros first.
  refine (getHashForPath_again freshFrame first.2 "/app/a.js"
            (WithSourceCode (codeUnits "abc") abcInfo) _ _).
  - reflexivity.
  - vm_compute. reflexivity.
Defined.

Lemma getHashForPath_other_keys_witness :
  cacheAfter (getHashForPath "/app/cacheEntry" staleFrame) !! "a.js"
  = changeCache (this staleFrame) !! "a.js".
Proof.
  refine (getHashForPath_other_keys staleFrame "/app/cacheEntry" "a.js" _ _).
  - vm_compute. discriminate.
  - discriminate.
Defined.

Lemma plainAscii_greeting : plainAscii greeting.
Proof.
  unfold plainAscii. apply List.Forall_forall. intros c Hc.
  vm_compute in Hc. repeat (destruct Hc as [<-|Hc]; [lia|]). contradiction.
Defined.

Lemma plainAscii_same_hash_witness :
  contentHash (utf16leEncode greeting) = Some (SHA1.hex greeting)
  /\ contentHash (utf8Encode greeting) = Some (SHA1.hex greeting).
Proof.
  refine (plainAscii_same_hash greeting plainAscii_greeting _).
  vm_compute. lia.
Defined.

Lemma contentsAreMinified_short_text_witness :
  contentsAreMinified (repeat 97 80) = false.
Proof.
  refine (contentsAreMinified_short_text (repeat 97 80) _).
  vm_compute. lia.
Defined.

Lemma contentsAreMinified_many_newlines_witness :
  contentsAreMinified (repeat 97 2000 ++ repeat 10 13) = false.
Proof.
  refine (contentsAreMinified_many_newlines (repeat 97 2000 ++ repeat 10 13) _).
  vm_compute. discriminate.
Defined.

Lemma hasSourceMap_last_line_only_witness :
  hasSourceMap (codeUnits "var a;" ++ 10 :: codeUnits "//# sourceMappingURL=a.map")
  = occursIn sourceMapMarker (codeUnits "//# sourceMappingURL=a.map")
  /\ hasSourceMap (codeUnits "//# sourceMappingURL=a.map")
     = occursIn sourceMapMarker (codeUnits "//# sourceMappingURL=a.map").
Proof.
  refine (hasSourceMap_last_line_only
            (codeUnits "var a;") (codeUnits "//# sourceMappingURL=a.map") _).
  apply List.Forall_forall. intros c Hc.
  vm_compute in Hc. repeat (destruct Hc as [<-|Hc]; [lia|]). contradiction.
Defined.

Lemma isInNodeModules_segment_witness :
  isInNodeModules ("C:\app" +:+ String "\" ("Node_Modules" +:+ String "/" "x.js"))
  = true.
Proof.
  refine (proj1 (isInNodeModules_segment "C:\app" "x.js" "Node_Modules" "\" "/" _) _).
  - reflexivity.
  - split; reflexivity.
Defined.

Lemma isInNodeModules_needs_separator_witness :
  isInNodeModules "node_modules" = false.
Proof.
  refine (isInNodeModules_needs_separator "node_modules" _).
  vm_compute. repeat split.
Defined.

Lemma cacheKeyOf_strips_root_witness :
  cacheKeyOf (this staleFrame) ("/app/" +:+ "src/a.js") = "src/a.js".
Proof.
  refine (proj1 (cacheKeyOf_strips_root (this staleFrame) "/app/" _ _) "src/a.js").
  - reflexivity.
  - discriminate.
Defined.

